(** * Asset forms of ralph_assets: multi-value fields, uniqueness checks,
      mode-dependent construction and size validation.

    A shallow embedding of [forms.py].  Python values are modelled as
    follows.
    - A unicode string (the module runs under [unicode_literals], and
      Django hands form data over as [unicode]) is a list of code points.
    - [raise] is a [Raise] result carrying the exception; the normal
      return of a function is [Return].
    - A [dict] ([kwargs], [cleaned_data], [_errors]) is a [gmap] keyed by
      strings.
    - The table [Asset.objects] is the list of its rows. *)

From Stdlib Require Import ZArith NArith List String Ascii Lia.
From stdpp Require Import base decidable option list strings gmap.

Open Scope N_scope.

(** ** Python strings *)

(** A [unicode] object: the sequence of its code points. *)
Abbreviation ustring := (list N).

(** The literal [u"..."] for text in the Latin-1 range. *)
Definition u (s : string) : ustring :=
  List.map N_of_ascii (list_ascii_of_string s).

(** [unicode.isspace] for one code point, the table of CPython 2.7
    ([_PyUnicode_IsWhitespace]). *)
Definition isspace (c : N) : bool :=
  ((9 <=? c) && (c <=? 13)) || ((28 <=? c) && (c <=? 32))
  || (c =? 133) || (c =? 160) || (c =? 5760) || (c =? 6158)
  || ((8192 <=? c) && (c <=? 8202)) || (c =? 8232) || (c =? 8233)
  || (c =? 8239) || (c =? 8287) || (c =? 12288).

Definition SPACE : N := 32.
Definition NEWLINE : N := 10.
Definition COMMA : N := 44.
Definition TAB : N := 9.

(** [s.lstrip()] *)
Fixpoint lstrip (s : ustring) : ustring :=
  match s with
  | [] => []
  | c :: s' => if isspace c then lstrip s' else s
  end.

(** [s.rstrip()] *)
Definition rstrip (s : ustring) : ustring := reverse (lstrip (reverse s)).

(** [s.strip()] *)
Definition strip (s : ustring) : ustring := rstrip (lstrip s).

(** The pattern [",|\n"] matches exactly one code point. *)
Definition is_sep (c : N) : bool := (c =? COMMA) || (c =? NEWLINE).

(** [re.split(",|\n", s)]: the pieces between the separators, the empty
    pieces included; a string without separator is its only piece. *)
Fixpoint re_split (s : ustring) : list ustring :=
  match s with
  | [] => [[]]
  | c :: s' =>
      if is_sep c then [] :: re_split s'
      else match re_split s' with
           | [] => [[c]]
           | piece :: pieces => (c :: piece) :: pieces
           end
  end.

(** [sep.join(items)] *)
Fixpoint join (sep : ustring) (items : list ustring) : ustring :=
  match items with
  | [] => []
  | item :: rest =>
      match rest with
      | [] => item
      | _ :: _ => item ++ sep ++ join sep rest
      end
  end.

(** ** Exceptions and results *)

(** Every exception carries its message.  [_("...")] marks a message for
    translation and is modelled by the message itself. *)
Inductive exn : Type :=
  | ValidationError (msg : ustring)
  | ModeNotSetException (msg : ustring)
  | TypeError (msg : ustring).

Inductive result (A : Type) : Type :=
  | Return (a : A)
  | Raise (e : exn).

Arguments Return {A} a.
Arguments Raise {A} e.

#[global] Instance result_ret : MRet result := fun A a => Return a.
#[global] Instance result_bind : MBind result := fun A B k r =>
  match r with
  | Return a => k a
  | Raise e => Raise e
  end.

(** ** [_validate_multivalue_data] *)

Definition error_msg : ustring :=
  u "Field can't be empty. Please put the items separated by new line or comma.".
Definition duplicate_sn_msg : ustring :=
  u "There are duplicate serial numbers in field.".
Definition white_characters_msg : ustring :=
  u "Serial number can't contain white characters.".

(** The names the specification gives to the three failures. *)
Definition EmptyInput : exn := ValidationError error_msg.
Definition DuplicateToken : exn := ValidationError duplicate_sn_msg.
Definition InvalidCharacter : exn := ValidationError white_characters_msg.

(** [filter(len, re.split(",|\n", data))] *)
Definition fragments (data : ustring) : list ustring :=
  filter (fun piece => piece <> []) (re_split data).

(** The [for] loop over the fragments; [items] is the list built so far. *)
Fixpoint multivalue_loop (items : list ustring) (frags : list ustring)
  : result (list ustring) :=
  match frags with
  | [] => Return items
  | item :: frags' =>
      let item := strip item in
      if bool_decide (item ∈ items) then Raise (ValidationError duplicate_sn_msg)
      else if bool_decide (SPACE ∈ item) then
        Raise (ValidationError white_characters_msg)
      else if bool_decide (item <> []) then multivalue_loop (items ++ [item]) frags'
      else multivalue_loop items frags'
  end.

Definition _validate_multivalue_data (data : ustring) : result (list ustring) :=
  let data := strip data in
  if bool_decide (data = []) then Raise (ValidationError error_msg)
  else
    items ← multivalue_loop [] (fragments data);
    if bool_decide (items = []) then Raise (ValidationError error_msg)
    else Return items.

(** ** The asset table and the uniqueness checks *)

(** A row of the [Asset] table, with the columns the forms read.  Both
    [sn] and [barcode] are nullable. *)
Module Asset.
Record t : Type := mk {
  id : Z;
  sn : option ustring;
  barcode : option ustring;
  type : Z
}.

(** The lookup [column__in=values] of one row; a NULL column matches no
    value. *)
Definition column_in (column : t -> option ustring) (values : list ustring)
  (asset : t) : bool :=
  match column asset with
  | Some v => bool_decide (v ∈ values)
  | None => false
  end.

(** [Asset.objects.filter(column__in=values)], the rows in table order. *)
Definition objects_filter (objects : list t) (column : t -> option ustring)
  (values : list ustring) : list t :=
  List.filter (column_in column values) objects.
End Asset.

(** A conflict: [(asset.sn, asset.id, asset.type)], or the same with
    [asset.barcode]. *)
Abbreviation conflict := (option ustring * Z * Z)%type.

Definition _check_serial_numbers_uniqueness (objects : list Asset.t)
  (serial_numbers : list ustring) : bool * list conflict :=
  let assets := Asset.objects_filter objects Asset.sn serial_numbers in
  match assets with
  | [] => (true, [])
  | _ :: _ =>
      (false,
       List.map (fun asset => (Asset.sn asset, Asset.id asset, Asset.type asset))
         assets)
  end.

Definition _check_barcodes_uniqueness (objects : list Asset.t)
  (barcodes : list ustring) : bool * list conflict :=
  let assets := Asset.objects_filter objects Asset.barcode barcodes in
  match assets with
  | [] => (true, [])
  | _ :: _ =>
      (false,
       List.map
         (fun asset => (Asset.barcode asset, Asset.id asset, Asset.type asset))
         assets)
  end.

(** [item[0] for item in not_unique]; the first component of a conflict is
    the column of a matching row, which is never NULL. *)
Definition conflict_tokens (not_unique : list conflict) : list ustring :=
  List.map (fun item => default [] (fst (fst item))) not_unique.

Definition _sn_additional_validation (objects : list Asset.t)
  (serial_numbers : list ustring) : result unit :=
  let '(is_unique, not_unique_sn) :=
    _check_serial_numbers_uniqueness objects serial_numbers in
  if negb is_unique then
    Raise (ValidationError
             (u "Following serial number already exists in DB: "
                ++ join (u ", ") (conflict_tokens not_unique_sn)))
  else Return tt.

(** ** Form construction *)

(** A value passed as a keyword argument of a form constructor. *)
Inductive pyval : Type :=
  | PyNone
  | PyStr (s : string)
  | PyPartInfo (device source_device : option Z)
  | PyObject.

#[global] Instance pyval_eq_dec : EqDecision pyval.
Proof. solve_decision. Defined.

(** The truth value of [v] in [if v:]. *)
Definition truthy (v : pyval) : bool :=
  match v with
  | PyNone => false
  | PyStr s => bool_decide (s <> "")
  | PyPartInfo _ _ | PyObject => true
  end.

(** [kwargs.get(key)] *)
Definition kwargs_get (kwargs : gmap string pyval) (key : string) : pyval :=
  default PyNone (kwargs !! key).

(** A form field, with the attributes the constructors set.  Help texts
    and plugin options are presentation only and are left out. *)
Inductive field : Type :=
  | ModelField (choices : list (Z * string))
  | AutoCompleteSelectField (channel : string) (required : bool)
      (initial : option Z).

(** [field.choices = choices] *)
Definition set_choices (choices : list (Z * string)) (f : field) : field :=
  match f with
  | ModelField _ => ModelField choices
  | AutoCompleteSelectField _ _ _ => f
  end.

(** [field.initial = initial] *)
Definition set_initial (initial : option Z) (f : field) : field :=
  match f with
  | ModelField _ => f
  | AutoCompleteSelectField channel required _ =>
      AutoCompleteSelectField channel required initial
  end.

(** [field.choices]; an autocomplete field lists none. *)
Definition choices_of (f : field) : list (Z * string) :=
  match f with
  | ModelField choices => choices
  | AutoCompleteSelectField _ _ _ => []
  end.

(** One member of a [Choices] enumeration. *)
Module Choice.
Record t : Type := mk { id : Z; desc : string }.
End Choice.

(** The keyword parameters of Django's [ModelForm.__init__]. *)
Definition ModelForm_keywords : list string :=
  ["data"; "files"; "auto_id"; "prefix"; "initial"; "error_class";
   "label_suffix"; "empty_permitted"; "instance"]%string.

Section Forms.

(** [AssetType] is declared in [ralph.assets.models]; the forms read the
    members of its two groups. *)
Variable AssetType_DC_choices : list Choice.t.
Variable AssetType_BO_choices : list Choice.t.

(** The choices a model column declares, which [ModelForm] gives to the
    form field it builds for that column. *)
Variable model_choices : string -> list (Z * string).

(** [ModelForm.__init__(self, **kwargs)]: a keyword the constructor does not
    declare is a [TypeError]; otherwise [self.fields] holds the declared
    fields and one field per name in [Meta.fields]. *)
Definition ModelForm__init__ (Meta_fields : list string)
  (declared : list (string * field)) (kwargs : gmap string pyval)
  : result (gmap string field) :=
  if bool_decide (dom kwargs ⊆ list_to_set ModelForm_keywords) then
    Return (list_to_map
              (declared
                 ++ ((fun name => (name, ModelField (model_choices name)))
                       <$> Meta_fields)))
  else Raise (TypeError (u "__init__() got an unexpected keyword argument")).

(** [self.instance] of a part form, as the ids of its [device] and
    [source_device]: those of the [instance] keyword, or of a fresh
    [PartInfo()], which has neither. *)
Definition PartInfo_instance (kwargs : gmap string pyval)
  : option Z * option Z :=
  match kwargs !! "instance"%string with
  | Some (PyPartInfo device source_device) => (device, source_device)
  | _ => (None, None)
  end.

Definition asset_declared_fields : list (string * field) :=
  [("model", AutoCompleteSelectField "asset_model" true None);
   ("warehouse", AutoCompleteSelectField "asset_warehouse" true None)]%string.

Definition DC_type_choices : list (Z * string) :=
  (fun c => (Choice.id c, Choice.desc c)) <$> AssetType_DC_choices.
Definition BO_type_choices : list (Z * string) :=
  (fun c => (Choice.id c, Choice.desc c)) <$> AssetType_BO_choices.

(** The body shared by [BaseAssetForm.__init__] and
    [BaseAddAssetForm.__init__]: the two constructors are written alike and
    differ in [Meta.fields].  Positional arguments go to [ModelForm]
    untouched and are left out. *)
Definition asset_form__init__ (Meta_fields : list string)
  (kwargs : gmap string pyval) : result (gmap string field) :=
  let mode := kwargs_get kwargs "mode" in
  let kwargs := if truthy mode then delete "mode"%string kwargs else kwargs in
  fields ← ModelForm__init__ Meta_fields asset_declared_fields kwargs;
  if bool_decide (mode = PyStr "dc") then
    Return (alter (set_choices DC_type_choices) "type"%string fields)
  else if bool_decide (mode = PyStr "back_office") then
    Return (alter (set_choices BO_type_choices) "type"%string fields)
  else Return fields.

Definition BaseAssetForm_Meta_fields : list string :=
  ["type"; "model"; "invoice_no"; "order_no"; "invoice_date";
   "support_period"; "support_type"; "support_void_reporting"; "provider";
   "status"; "remarks"; "sn"; "barcode"; "warehouse"]%string.

Definition BaseAddAssetForm_Meta_fields : list string :=
  ["type"; "model"; "invoice_no"; "order_no"; "invoice_date";
   "support_period"; "support_type"; "support_void_reporting"; "provider";
   "status"; "remarks"]%string.

Definition BaseAssetForm__init__ (kwargs : gmap string pyval)
  : result (gmap string field) :=
  asset_form__init__ BaseAssetForm_Meta_fields kwargs.

Definition BaseAddAssetForm__init__ (kwargs : gmap string pyval)
  : result (gmap string field) :=
  asset_form__init__ BaseAddAssetForm_Meta_fields kwargs.

(** [self.fields['type'].choices] of a constructed form. *)
Definition type_choices (fields : gmap string field) : list (Z * string) :=
  from_option choices_of [] (fields !! "type"%string).

Definition BasePartForm__init__ (kwargs : gmap string pyval)
  : result (gmap string field) :=
  let mode := kwargs_get kwargs "mode" in
  if truthy mode then
    let kwargs := delete "mode"%string kwargs in
    fields ← ModelForm__init__ ["barcode_salvaged"%string] [] kwargs;
    let '(device, source_device) := PartInfo_instance kwargs in
    let channel :=
      if bool_decide (mode = PyStr "dc") then "asset_dcdevice"%string
      else "asset_bodevice"%string in
    let fields :=
      <["device"%string := AutoCompleteSelectField channel false None]> fields in
    let fields :=
      <["source_device"%string := AutoCompleteSelectField channel false None]>
        fields in
    let fields :=
      if bool_decide (is_Some source_device) then
        alter (set_initial source_device) "source_device"%string fields
      else fields in
    let fields :=
      if bool_decide (is_Some device) then
        alter (set_initial device) "device"%string fields
      else fields in
    Return fields
  else Raise (ModeNotSetException (u "mode argument not given.")).

End Forms.

(** ** Field and form validation *)

(** [DeviceForm.clean_size]; [size] is [self.cleaned_data.get('size')],
    [None] when the entry is missing. *)
Module DeviceForm.

(** [range(lo, hi)] *)
Definition range (lo hi : Z) : list Z :=
  (fun i => (lo + Z.of_nat i)%Z) <$> seq 0 (Z.to_nat (hi - lo)).

Definition clean_size (size : option Z) : result (option Z) :=
  if bool_decide (size ∉ (Some <$> range 0 65535)) then
    Raise (ValidationError (u "Invalid size, use range 0 to 65535"))
  else Return size.

End DeviceForm.

Module AddDeviceForm.

Definition duplicate_barcodes_msg : ustring :=
  u "There are duplicate barcodes in field.".
Definition barcode_list_msg : ustring :=
  u "Barcode list could be empty or must have the same number of items as a SN list.".

(** The name the specification gives to the failure of the pairing rule. *)
Definition LengthMismatch : list ustring := [barcode_list_msg].

(** [clean_sn]; [sn] is [self.cleaned_data["sn"]]. *)
Definition clean_sn (objects : list Asset.t) (sn : ustring)
  : result (list ustring) :=
  data ← _validate_multivalue_data sn;
  _ ← _sn_additional_validation objects data;
  Return data.

(** The [for] loop of [clean_barcode]. *)
Fixpoint barcode_loop (barcodes : list ustring) (frags : list ustring)
  : result (list ustring) :=
  match frags with
  | [] => Return barcodes
  | barcode :: frags' =>
      let barcode := strip barcode in
      if bool_decide (barcode ∈ barcodes) then
        Raise (ValidationError duplicate_barcodes_msg)
      else if bool_decide (SPACE ∈ barcode) then
        Raise (ValidationError white_characters_msg)
      else if bool_decide (barcode <> []) then
        barcode_loop (barcodes ++ [barcode]) frags'
      else barcode_loop barcodes frags'
  end.

(** [clean_barcode]; [barcode] is [self.cleaned_data["barcode"]]. *)
Definition clean_barcode (objects : list Asset.t) (barcode : ustring)
  : result (list ustring) :=
  let data := strip barcode in
  if bool_decide (data <> []) then
    barcodes ← barcode_loop [] (fragments data);
    if bool_decide (barcodes = []) then
      Raise (ValidationError barcode_list_msg)
    else
      let '(is_unique, not_unique_bc) :=
        _check_barcodes_uniqueness objects barcodes in
      if negb is_unique then
        Raise (ValidationError
                 (u "Following barcodes already exists in DB: "
                    ++ join (u ", ") (conflict_tokens not_unique_bc)))
      else Return barcodes
  else Return [].

(** The state of a bound form that [clean] reads and writes:
    [self.cleaned_data], with the entries [clean_sn] and [clean_barcode]
    stored (an entry is missing when its field failed), and
    [self._errors]. *)
Record t : Type := mk {
  cleaned_data : gmap string (list ustring);
  _errors : gmap string (list ustring)
}.

(** [clean]: returns [cleaned_data]; the second component is the form
    after the call. *)
Definition clean (self : t) : gmap string (list ustring) * t :=
  let cleaned_data := cleaned_data self in
  let serial_numbers := default [] (cleaned_data !! "sn"%string) in
  let barcodes := default [] (cleaned_data !! "barcode"%string) in
  if bool_decide (barcodes <> [])
     && bool_decide (length serial_numbers <> length barcodes) then
    (cleaned_data,
     mk cleaned_data (<["barcode"%string := LengthMismatch]> (_errors self)))
  else (cleaned_data, self).

(** [is_valid()] of a bound form: no error was recorded. *)
Definition is_valid (self : t) : bool := bool_decide (_errors self = ∅).

End AddDeviceForm.

(** ** The other forms *)

Module AddPartForm.

(** [clean_sn]; [sn] is [self.cleaned_data["sn"]]. *)
Definition clean_sn (objects : list Asset.t) (sn : ustring)
  : result (list ustring) :=
  data ← _validate_multivalue_data sn;
  _ ← _sn_additional_validation objects data;
  Return data.

End AddPartForm.

(** [EditPartForm.__init__]: the constructor of [BaseAssetForm], then
    [del self.fields['barcode']].  [Meta.fields] of [BaseAssetForm] names
    [barcode], so the entry is there whenever the base constructor
    returns. *)
Definition EditPartForm__init__ (AssetType_DC_choices AssetType_BO_choices : list Choice.t)
  (model_choices : string -> list (Z * string)) (kwargs : gmap string pyval)
  : result (gmap string field) :=
  fields ← BaseAssetForm__init__ AssetType_DC_choices AssetType_BO_choices
             model_choices kwargs;
  Return (delete "barcode"%string fields).

(** [EditDeviceForm] adds nothing to [BaseAssetForm]. *)
Definition EditDeviceForm__init__ (AssetType_DC_choices AssetType_BO_choices : list Choice.t)
  (model_choices : string -> list (Z * string)) (kwargs : gmap string pyval)
  : result (gmap string field) :=
  BaseAssetForm__init__ AssetType_DC_choices AssetType_BO_choices
    model_choices kwargs.

Module SearchAssetForm.

(** The value of a choice: an id of [AssetStatus], or the empty string of
    the blank choice. *)
Inductive choice_value : Type :=
  | Blank
  | Id (id : Z).

(** The fields of the search form; labels, widgets and help texts are
    presentation only and are left out. *)
Inductive field : Type :=
  | CharField (required : bool)
  | DateField (required : bool)
  | ChoiceField (required : bool) (choices : list (choice_value * string))
  | AutoCompleteField (channel : string) (required : bool)
  | AutoCompleteSelectField (channel : string) (required : bool).

(** The keyword parameters of Django's [Form.__init__]. *)
Definition Form_keywords : list string :=
  ["data"; "files"; "auto_id"; "prefix"; "initial"; "error_class";
   "label_suffix"; "empty_permitted"]%string.

(** The fields the class declares; [AssetStatus] is the list [AssetStatus()]
    of the statuses, declared in [ralph.assets.models]. *)
Definition declared_fields (AssetStatus : list (Z * string))
  : list (string * field) :=
  [("model", AutoCompleteField "asset_model" false);
   ("invoice_no", CharField false);
   ("order_no", CharField false);
   ("invoice_date_from", DateField false);
   ("invoice_date_to", DateField false);
   ("provider", CharField false);
   ("status",
    ChoiceField false
      ((Blank, "----") :: ((fun c => (Id (fst c), snd c)) <$> AssetStatus)));
   ("sn", CharField false)]%string.

(** [Form.__init__(self, **kwargs)]: a keyword the constructor does not
    declare is a [TypeError]; otherwise [self.fields] holds the declared
    fields. *)
Definition Form__init__ (declared : list (string * field))
  (kwargs : gmap string pyval) : result (gmap string field) :=
  if bool_decide (dom kwargs ⊆ list_to_set Form_keywords) then
    Return (list_to_map declared)
  else Raise (TypeError (u "__init__() got an unexpected keyword argument")).

Definition __init__ (AssetStatus : list (Z * string))
  (kwargs : gmap string pyval) : result (gmap string field) :=
  let mode := kwargs_get kwargs "mode" in
  let kwargs := if truthy mode then delete "mode"%string kwargs else kwargs in
  let channel :=
    if bool_decide (mode = PyStr "dc") then "asset_dcdevice"%string
    else "asset_bodevice"%string in
  fields ← Form__init__ (declared_fields AssetStatus) kwargs;
  Return (<["device"%string := AutoCompleteSelectField channel false]> fields).

End SearchAssetForm.

(** ** Vocabulary of the properties *)

(** A string that starts with a code point that is not white space. *)
Definition starts_black (s : ustring) : Prop :=
  match s with
  | [] => False
  | c :: _ => isspace c = false
  end.

(** A trimmed string: white space neither at the start nor at the end. *)
Definition trimmed (s : ustring) : Prop := starts_black s /\ starts_black (reverse s).

(** A string without comma and newline. *)
Definition unbroken (s : ustring) : Prop := Forall (fun c => is_sep c = false) s.

(** The tokens of a list of fragments: each fragment trimmed, the empty
    results dropped. *)
Definition tokens_of (frags : list ustring) : list ustring :=
  filter (fun x => x <> []) (strip <$> frags).

(** The row [asset] has its [column] among the [tokens]. *)
Definition matches (column : Asset.t -> option ustring)
  (tokens : list ustring) (asset : Asset.t) : Prop :=
  exists t, column asset = Some t /\ t ∈ tokens.

#[global] Instance matches_dec column tokens asset :
  Decision (matches column tokens asset).
Proof.
  unfold matches. destruct (column asset) as [t|].
  - destruct (decide (t ∈ tokens)) as [Hin|Hin].
    + left. by exists t.
    + right. by intros (? & [= <-] & ?).
  - right. by intros (? & [=] & _).
Defined.

(** What the specification asks of a uniqueness check on [column]:
    - it passes with no conflict exactly when no row matches;
    - otherwise it fails with one conflict per matching row, in table
      order;
    - every conflict is the token, the id and the type of a matching row. *)
Definition uniqueness_contract
  (check : list Asset.t -> list ustring -> bool * list conflict)
  (column : Asset.t -> option ustring) : Prop :=
  forall objects tokens,
    let rows := filter (matches column tokens) objects in
    (check objects tokens = (true, []) <->
     forall asset, asset ∈ objects -> ~ matches column tokens asset)
    /\ (check objects tokens = (true, []) \/
        rows <> [] /\
        check objects tokens =
        (false, (fun a => (column a, Asset.id a, Asset.type a)) <$> rows))
    /\ (forall c, c ∈ snd (check objects tokens) ->
        exists asset t,
          asset ∈ objects /\ t ∈ tokens /\ column asset = Some t
          /\ c = (Some t, Asset.id asset, Asset.type asset)).

(** The exception of a part form constructed without a mode. *)
Definition mode_not_given : exn :=
  ModeNotSetException (u "mode argument not given.").

(** Modelled from the spec: the declaration of [AssetType] and of the [type]
    column of [Asset] is not among the sources.  The specification speaks
    of a data-center subset and a back-office subset of the asset types; the
    instance below has one data-center type, the [AssetType.data_center] of
    the tests, and two back-office types, and the [type] column offers all
    three. *)
Definition AssetType_DC_instance : list Choice.t :=
  [Choice.mk 1 "data center"].
Definition AssetType_BO_instance : list Choice.t :=
  [Choice.mk 101 "back office"; Choice.mk 102 "administration"].
Definition model_choices_instance (name : string) : list (Z * string) :=
  if decide (name = "type"%string) then
    [(1%Z, "data center"%string); (101%Z, "back office"%string);
     (102%Z, "administration"%string)]
  else [].

(** [kwargs] without [mode] holds only keywords of [ModelForm.__init__]. *)
Definition accepted_kwargs (kwargs : gmap string pyval) : Prop :=
  dom (delete "mode"%string kwargs) ⊆ list_to_set ModelForm_keywords.

(** * Properties *)

(** ** The embedding at work *)

Example strip_both_ends : strip (u "  a b  ") = u "a b".
Proof. reflexivity. Qed.

Example re_split_keeps_empty_pieces :
  re_split (u "a,,b,") = [u "a"; u ""; u "b"; u ""].
Proof. reflexivity. Qed.

Example clean_sn_accepts :
  AddDeviceForm.clean_sn [Asset.mk 7 (Some (u "sn-123")) None 1] (u "sn-1, sn-2")
  = Return [u "sn-1"; u "sn-2"].
Proof. by vm_compute. Qed.

Example clean_sn_existing :
  AddDeviceForm.clean_sn [Asset.mk 7 (Some (u "sn-123")) None 1]
    (u "sn-123,sn-999")
  = Raise (ValidationError
             (u "Following serial number already exists in DB: sn-123")).
Proof. by vm_compute. Qed.

Example clean_barcode_blank :
  AddDeviceForm.clean_barcode [] (u "   ") = Return [].
Proof. by vm_compute. Qed.

Example clean_barcode_duplicate :
  AddDeviceForm.clean_barcode [] (u "bc-1,bc-1")
  = Raise (ValidationError AddDeviceForm.duplicate_barcodes_msg).
Proof. by vm_compute. Qed.

Example part_form_channel :
  BasePartForm__init__ model_choices_instance
    {[ "mode"%string := PyStr "dc";
       "instance"%string := PyPartInfo (Some 3%Z) None ]}
  ≫= (fun fields => Return (fields !! "device"%string))
  = Return (Some (AutoCompleteSelectField "asset_dcdevice" false (Some 3%Z))).
Proof. by vm_compute. Qed.

(** ** Trimming *)

Section Strings.
Implicit Types (s t : ustring) (c : N).

Lemma isspace_SPACE : isspace SPACE = true.
Proof. reflexivity. Qed.

Lemma isspace_COMMA : isspace COMMA = false.
Proof. reflexivity. Qed.

Lemma lstrip_starts_black s : starts_black s -> lstrip s = s.
Proof. destruct s as [|c s]; simpl; [done|]. by intros ->. Qed.

Lemma lstrip_black_or_nil s : lstrip s = [] \/ starts_black (lstrip s).
Proof.
  induction s as [|c s IH]; simpl; [by left|].
  destruct (isspace c) eqn:Hc; [done|]. right. exact Hc.
Qed.

Lemma lstrip_idemp s : lstrip (lstrip s) = lstrip s.
Proof.
  destruct (lstrip_black_or_nil s) as [->|H]; [done|].
  by apply lstrip_starts_black.
Qed.

Lemma lstrip_snoc_black s c :
  isspace c = false -> lstrip (s ++ [c]) = lstrip s ++ [c].
Proof.
  intros Hc. induction s as [|d s IH]; simpl.
  - by rewrite Hc.
  - by destruct (isspace d).
Qed.

Lemma elem_of_lstrip s c : c ∈ lstrip s -> c ∈ s.
Proof.
  induction s as [|d s IH]; simpl; [done|].
  destruct (isspace d); [|done]. intros H. right. by apply IH.
Qed.

Lemma starts_black_app s t : starts_black s -> starts_black (s ++ t).
Proof. by destruct s. Qed.

Lemma rstrip_cons_black c s :
  isspace c = false -> rstrip (c :: s) = c :: rstrip s.
Proof.
  intros Hc. unfold rstrip.
  by rewrite reverse_cons, lstrip_snoc_black, reverse_app by done.
Qed.

Lemma trimmed_strip s : trimmed s -> strip s = s.
Proof.
  intros [H1 H2]. unfold strip, rstrip.
  rewrite (lstrip_starts_black s H1), (lstrip_starts_black _ H2).
  apply reverse_involutive.
Qed.

Lemma strip_nil_or_trimmed s : strip s = [] \/ trimmed (strip s).
Proof.
  unfold strip. destruct (lstrip_black_or_nil s) as [->|H]; [by left|].
  right. destruct (lstrip s) as [|c t]; [done|]. simpl in H.
  split.
  - by rewrite rstrip_cons_black.
  - unfold rstrip. rewrite reverse_involutive.
    destruct (lstrip_black_or_nil (reverse (c :: t))) as [E|E]; [|done].
    rewrite reverse_cons, lstrip_snoc_black in E by done.
    by destruct (lstrip (reverse t)).
Qed.

Lemma strip_idemp s : strip (strip s) = strip s.
Proof.
  destruct (strip_nil_or_trimmed s) as [->|H]; [done|].
  by apply trimmed_strip.
Qed.

Lemma elem_of_strip s c : c ∈ strip s -> c ∈ s.
Proof.
  unfold strip, rstrip. rewrite elem_of_reverse. intros H.
  apply elem_of_lstrip in H. rewrite elem_of_reverse in H.
  by apply elem_of_lstrip.
Qed.

Lemma strip_nil : strip [] = [].
Proof. reflexivity. Qed.

End Strings.

(** ** Splitting and joining *)

Section Split.
Implicit Types (s t : ustring) (c : N) (items : list ustring).

Lemma re_split_not_nil s : re_split s <> [].
Proof.
  destruct s as [|c s]; simpl; [done|].
  destruct (is_sep c); [done|]. by destruct (re_split s).
Qed.

Lemma re_split_unbroken s : Forall unbroken (re_split s).
Proof.
  induction s as [|c s IH]; simpl.
  - repeat constructor.
  - destruct (is_sep c) eqn:Hc.
    + constructor; [constructor|done].
    + destruct (re_split s) as [|piece pieces].
      * repeat constructor. done.
      * inversion IH; subst. constructor; [|done]. by constructor.
Qed.

Lemma re_split_app_sep s c t :
  unbroken s -> is_sep c = true -> re_split (s ++ c :: t) = s :: re_split t.
Proof.
  intros Hs Hc. induction Hs as [|d s Hd Hs IH]; simpl.
  - by rewrite Hc.
  - by rewrite Hd, IH.
Qed.

Lemma re_split_one s : unbroken s -> re_split s = [s].
Proof.
  intros Hs. induction Hs as [|d s Hd Hs IH]; simpl; [done|].
  by rewrite Hd, IH.
Qed.

(** Splitting inverts joining with a separator. *)
Lemma re_split_join c items :
  is_sep c = true -> items <> [] -> Forall unbroken items ->
  re_split (join [c] items) = items.
Proof.
  intros Hc Hne Hall. induction Hall as [|s items Hs Hall IH]; [done|].
  simpl. destruct items as [|t items].
  - by apply re_split_one.
  - rewrite re_split_app_sep by done. f_equal. by apply IH.
Qed.

Lemma join_starts_black sep s items :
  starts_black s -> starts_black (join sep (s :: items)).
Proof.
  intros Hs. simpl. destruct items; [done|]. by apply starts_black_app.
Qed.

Lemma join_snoc sep items s :
  items <> [] -> join sep (items ++ [s]) = join sep items ++ sep ++ s.
Proof.
  induction items as [|t items IH]; [done|]. intros _.
  destruct items as [|t' items]; [done|].
  change (join sep ((t :: t' :: items) ++ [s]))
    with (t ++ sep ++ join sep ((t' :: items) ++ [s])).
  rewrite IH by done.
  change (join sep (t :: t' :: items))
    with (t ++ sep ++ join sep (t' :: items)).
  by rewrite <- !app_assoc.
Qed.

Lemma join_ends_black sep items s :
  starts_black (reverse s) -> starts_black (reverse (join sep (items ++ [s]))).
Proof.
  intros Hs. destruct items as [|t items]; [done|].
  rewrite join_snoc by done. rewrite !reverse_app, <- app_assoc.
  by apply starts_black_app.
Qed.

(** Joining trimmed items gives a trimmed string. *)
Lemma join_trimmed sep items :
  items <> [] -> Forall trimmed items -> trimmed (join sep items).
Proof.
  intros Hne Hall. split.
  - destruct Hall as [|s items [Hs _] _]; [done|]. by apply join_starts_black.
  - destruct items as [|s items _] using rev_ind; [done|].
    apply Forall_app in Hall as [_ Hs]. inversion Hs as [|? ? [_ Hr] _]; subst.
    by apply join_ends_black.
Qed.

End Split.

(** ** The loop of the multi-value parser *)

Section Loop.
Implicit Types (acc items frags pre post : list ustring) (f : ustring).

Lemma tokens_of_cons f frags :
  tokens_of (f :: frags) =
  if decide (strip f <> []) then strip f :: tokens_of frags else tokens_of frags.
Proof. unfold tokens_of. by rewrite fmap_cons, filter_cons. Qed.

Ltac loop_step :=
  simpl multivalue_loop; cbv zeta;
  repeat (case_bool_decide; try done).

Lemma loop_Return acc frags items :
  multivalue_loop acc frags = Return items ->
  items = acc ++ tokens_of frags
  /\ Forall (fun x => SPACE ∉ x) (tokens_of frags)
  /\ (NoDup acc -> NoDup items).
Proof.
  revert acc items. induction frags as [|f frags IH]; intros acc items.
  - simpl. intros [= <-]. by rewrite app_nil_r.
  - rewrite tokens_of_cons. loop_step; intros Hloop;
      apply IH in Hloop as (-> & Hsp & Hnd).
    + rewrite decide_True by done. rewrite <- app_assoc. split; [done|].
      split; [by constructor|]. intros Hacc. rewrite app_assoc. apply Hnd.
      apply NoDup_app. split; [done|]. split; [|apply NoDup_singleton].
      intros x Hx ->%list_elem_of_singleton. done.
    + rewrite decide_False by (intros ?; done). done.
Qed.

Lemma loop_Raise acc frags e :
  multivalue_loop acc frags = Raise e ->
  e = DuplicateToken \/ e = InvalidCharacter.
Proof.
  revert acc. induction frags as [|f frags IH]; intros acc; [done|].
  loop_step; try (intros [= <-]; by auto); apply IH.
Qed.

Lemma loop_app acc pre post :
  multivalue_loop acc (pre ++ post) =
  multivalue_loop acc pre ≫= fun acc' => multivalue_loop acc' post.
Proof.
  revert acc. induction pre as [|f pre IH]; intros acc; [done|].
  rewrite <- app_comm_cons. loop_step; apply IH.
Qed.

(** Trimmed, non-empty, space-free and distinct items all pass. *)
Lemma loop_tokens acc items :
  Forall (fun x => strip x = x /\ x <> [] /\ SPACE ∉ x) items ->
  NoDup (acc ++ items) ->
  multivalue_loop acc items = Return (acc ++ items).
Proof.
  intros Hall. revert acc.
  induction Hall as [|x items (Hx & Hne & Hsp) Hall IH]; intros acc Hnd.
  - by rewrite app_nil_r.
  - simpl multivalue_loop; cbv zeta. rewrite Hx.
    rewrite bool_decide_eq_false_2.
    2:{ apply NoDup_app in Hnd as (_ & Hd & _). intros Hin.
        apply (Hd x Hin). by left. }
    rewrite bool_decide_eq_false_2 by done.
    rewrite bool_decide_eq_true_2 by done.
    rewrite IH; rewrite <- app_assoc; done.
Qed.

(** Fragments of white space only are skipped. *)
Lemma loop_blank frags :
  Forall (fun f => strip f = []) frags -> multivalue_loop [] frags = Return [].
Proof.
  induction 1 as [|f frags Hf _ IH]; [done|].
  simpl multivalue_loop; cbv zeta. rewrite Hf. loop_step.
  by apply not_elem_of_nil in H.
Qed.

Lemma tokens_of_nil_blank frags :
  tokens_of frags = [] -> Forall (fun f => strip f = []) frags.
Proof.
  induction frags as [|f frags IH]; [done|].
  rewrite tokens_of_cons. case_decide as Hd; [done|].
  intros H. constructor; [|by apply IH].
  by destruct (decide (strip f = [])).
Qed.

(** The first fragment with a space fails the pass, when the fragments
    before it are distinct. *)
Lemma loop_space acc pre f post :
  Forall (fun x => x <> [] /\ SPACE ∉ x) acc ->
  NoDup (acc ++ tokens_of pre) ->
  SPACE ∈ strip f ->
  multivalue_loop acc (pre ++ f :: post) = Raise InvalidCharacter.
Proof.
  revert acc. induction pre as [|g pre IH]; intros acc Hacc Hnd Hf.
  - simpl app. simpl multivalue_loop; cbv zeta.
    rewrite bool_decide_eq_false_2.
    2:{ intros Hin. rewrite Forall_forall in Hacc.
        by destruct (Hacc _ Hin) as [_ []]. }
    by rewrite bool_decide_eq_true_2.
  - rewrite <- app_comm_cons. rewrite tokens_of_cons in Hnd.
    simpl multivalue_loop; cbv zeta.
    destruct (decide (strip g <> [])) as [Hg|Hg].
    + rewrite bool_decide_eq_false_2.
      2:{ apply NoDup_app in Hnd as (_ & Hd & _). intros Hin.
          apply (Hd _ Hin). by left. }
      case_bool_decide as Hsp; [done|].
      rewrite bool_decide_eq_true_2 by done.
      apply IH; [|by rewrite <- app_assoc|done].
      apply Forall_app. split; [done|]. by repeat constructor.
    + apply dec_stable in Hg. rewrite Hg.
      rewrite bool_decide_eq_false_2.
      2:{ intros Hin. rewrite Forall_forall in Hacc.
          by destruct (Hacc _ Hin) as [[] _]. }
      rewrite bool_decide_eq_false_2 by (by intros ?%not_elem_of_nil).
      rewrite bool_decide_eq_false_2 by (by intros []).
      by apply IH.
Qed.

(** A fragment that repeats an earlier one fails the pass, when no
    fragment before it has a space. *)
Lemma loop_duplicate acc pre f post :
  Forall (fun g => SPACE ∉ strip g) pre ->
  strip f <> [] ->
  strip f ∈ acc ++ (strip <$> pre) ->
  multivalue_loop acc (pre ++ f :: post) = Raise DuplicateToken.
Proof.
  intros Hpre Hne. revert acc.
  induction Hpre as [|g pre Hg Hpre IH]; intros acc Hin.
  - rewrite app_nil_r in Hin. simpl app. simpl multivalue_loop; cbv zeta.
    by rewrite bool_decide_eq_true_2.
  - rewrite <- app_comm_cons. simpl multivalue_loop; cbv zeta.
    case_bool_decide as Hd; [done|].
    rewrite bool_decide_eq_false_2 by done.
    case_bool_decide as He.
    + apply IH. rewrite <- app_assoc. exact Hin.
    + apply IH. rewrite fmap_cons, He in Hin.
      apply elem_of_app in Hin as [Hin|Hin]; apply elem_of_app; [by left|].
      apply elem_of_cons in Hin as [Hin|Hin]; [done|by right].
Qed.

End Loop.

(** ** The multi-value parser *)

Lemma messages_distinct :
  EmptyInput <> DuplicateToken /\ EmptyInput <> InvalidCharacter
  /\ DuplicateToken <> InvalidCharacter.
Proof. repeat split; intros [= H]; vm_compute in H; discriminate H. Qed.

Lemma fragments_strip_nil data : strip data = [] -> fragments (strip data) = [].
Proof. by intros ->. Qed.

Lemma fragments_unbroken data : Forall unbroken (fragments data).
Proof.
  unfold fragments. apply Forall_forall. intros f [_ Hf]%list_elem_of_filter.
  revert f Hf. apply Forall_forall, re_split_unbroken.
Qed.

(** The parser in terms of its loop. *)
Lemma validate_Return data items :
  _validate_multivalue_data data = Return items <->
  strip data <> []
  /\ multivalue_loop [] (fragments (strip data)) = Return items
  /\ items <> [].
Proof.
  unfold _validate_multivalue_data. cbv zeta.
  case_bool_decide as Hd; [by split; [|intros (? & _)]|].
  destruct (multivalue_loop [] (fragments (strip data))) as [r|e]; simpl.
  - case_bool_decide as Hr.
    + split; [done|]. intros (_ & [= ->] & ?). done.
    + split; [by intros [= <-]|]. by intros (_ & [= ->] & _).
  - split; [done|]. by intros (_ & ? & _).
Qed.

Lemma validate_loop_Raise data e :
  strip data <> [] ->
  multivalue_loop [] (fragments (strip data)) = Raise e ->
  _validate_multivalue_data data = Raise e.
Proof.
  intros Hd He. unfold _validate_multivalue_data. cbv zeta.
  rewrite bool_decide_eq_false_2 by done. by rewrite He.
Qed.

(** What a successful parse returns, and the shape of each token. *)
Lemma validate_tokens data items :
  _validate_multivalue_data data = Return items ->
  items = tokens_of (fragments (strip data))
  /\ NoDup items
  /\ Forall (fun x => trimmed x /\ unbroken x /\ x <> [] /\ SPACE ∉ x) items.
Proof.
  intros (_ & Hloop & _)%validate_Return.
  apply loop_Return in Hloop as (-> & Hsp & Hnd). simpl.
  split; [done|]. split; [apply Hnd; constructor|].
  apply Forall_forall. intros x Hx.
  pose proof Hx as [Hne (f & -> & Hf)%list_elem_of_fmap]%list_elem_of_filter.
  destruct (strip_nil_or_trimmed f) as [?|Htr]; [done|].
  split; [done|]. split; [|split; [done|]].
  - apply Forall_forall. intros c Hc%elem_of_strip. revert c Hc.
    apply Forall_forall. clear Hne Hx Htr. revert f Hf.
    apply Forall_forall, fragments_unbroken.
  - clear Hne Htr Hf. revert Hx. generalize (strip f).
    by apply Forall_forall.
Qed.

(** Claim C7.  Parsing ["a,b,c"] and parsing the same three letters on
    three lines both return the tokens ["a"], ["b"], ["c"] in that order.
    In general a successful parse returns the pieces between commas and
    newlines of the trimmed input, the empty ones dropped, each trimmed, in
    the order of the input; and splitting inverts joining pieces with a
    comma or with a newline. *)
Theorem validate_multivalue_data_splits_in_order :
  _validate_multivalue_data (u "a,b,c") = Return [u "a"; u "b"; u "c"]
  /\ _validate_multivalue_data (u "a" ++ [NEWLINE] ++ u "b" ++ [NEWLINE] ++ u "c")
     = Return [u "a"; u "b"; u "c"]
  /\ (forall data items,
        _validate_multivalue_data data = Return items ->
        items =
        filter (fun x => x <> [])
          (strip <$> filter (fun x => x <> []) (re_split (strip data))))
  /\ (forall c pieces,
        c = COMMA \/ c = NEWLINE -> pieces <> [] -> Forall unbroken pieces ->
        re_split (join [c] pieces) = pieces).
Proof.
  split; [by vm_compute|]. split; [by vm_compute|]. split.
  - intros data items H. by apply validate_tokens in H as [-> _].
  - intros c pieces Hc. apply re_split_join. by destruct Hc as [-> | ->].
Qed.

(** Claim C8.  The parser fails with [EmptyInput] exactly when the input is
    empty after trimming or the pass over the fragments ends with no token
    accepted, which is when every fragment is white space only; it fails so
    on [""], on ["   "] and on [",,,"]; and it never returns an empty list. *)
Theorem validate_multivalue_data_EmptyInput data :
  (_validate_multivalue_data data = Raise EmptyInput <->
   strip data = [] \/ multivalue_loop [] (fragments (strip data)) = Return [])
  /\ (multivalue_loop [] (fragments (strip data)) = Return [] <->
      Forall (fun f => strip f = []) (fragments (strip data)))
  /\ _validate_multivalue_data data <> Return []
  /\ _validate_multivalue_data (u "") = Raise EmptyInput
  /\ _validate_multivalue_data (u "   ") = Raise EmptyInput
  /\ _validate_multivalue_data (u ",,,") = Raise EmptyInput.
Proof.
  split; [|split; [|split; [|by vm_compute]]].
  - unfold _validate_multivalue_data. cbv zeta.
    case_bool_decide as Hd; [by split; [left|]|].
    destruct (multivalue_loop [] (fragments (strip data))) as [r|e] eqn:Hloop;
      simpl.
    + case_bool_decide as Hr; [subst r; by split; [right|]|].
      split; [done|]. by intros [?|[= ->]].
    + split; [|by intros [?|?]]. intros [= ->].
      destruct (loop_Raise _ _ _ Hloop) as [E|E]; by apply messages_distinct in E.
  - split; [|apply loop_blank].
    intros H. apply loop_Return in H as (H & _). simpl in H.
    by apply tokens_of_nil_blank.
  - by intros (_ & _ & ?)%validate_Return.
Qed.

(** Claim C4.  When parsing [s] succeeds, joining the tokens with commas and
    parsing the result succeeds with the same tokens. *)
Theorem validate_multivalue_data_join_roundtrip s items :
  _validate_multivalue_data s = Return items ->
  _validate_multivalue_data (join [COMMA] items) = Return items.
Proof.
  intros H. pose proof H as (_ & _ & Hne)%validate_Return.
  apply validate_tokens in H as (_ & Hnd & Hall).
  assert (Htr : trimmed (join [COMMA] items)).
  { apply join_trimmed; [done|]. eapply Forall_impl; [exact Hall|]. by intros ? []. }
  apply validate_Return. rewrite (trimmed_strip _ Htr).
  split; [by destruct Htr as [Hs _]; destruct (join [COMMA] items)|].
  split; [|done].
  unfold fragments. rewrite re_split_join; [|done|done|].
  2:{ eapply Forall_impl; [exact Hall|]. by intros ? (_ & ? & _). }
  replace (filter (fun piece => piece <> []) items) with items.
  2:{ clear -Hall. induction Hall as [|x l (_ & _ & Hx & _) _ IH]; [done|].
      rewrite filter_cons_True by done. by f_equal. }
  apply (loop_tokens [] items); [|done].
  eapply Forall_impl; [exact Hall|].
  intros x (Hx & _ & ? & ?). split; [by apply trimmed_strip|done].
Qed.

Lemma validate_multivalue_data_join_roundtrip_witness :
  _validate_multivalue_data (u " x1, y2 ,,z3 ") = Return [u "x1"; u "y2"; u "z3"]
  /\ _validate_multivalue_data (join [COMMA] [u "x1"; u "y2"; u "z3"])
     = Return [u "x1"; u "y2"; u "z3"].
Proof.
  split; [vm_compute; reflexivity|].
  apply (validate_multivalue_data_join_roundtrip (u " x1, y2 ,,z3 ")).
  vm_compute; reflexivity.
Defined.

Lemma fragments_cons_strip data pre f post :
  fragments (strip data) = pre ++ f :: post -> strip data <> [].
Proof. intros H E. rewrite fragments_strip_nil in H by done. by destruct pre. Qed.

(** Claim C1, as amended.  If some fragment, once trimmed, contains a space
    character, and the fragments before it are pairwise distinct once
    trimmed (the empty ones aside), parsing fails with
    [InvalidCharacter]. *)
Theorem validate_multivalue_data_space data pre f post :
  fragments (strip data) = pre ++ f :: post ->
  NoDup (filter (fun x => x <> []) (strip <$> pre)) ->
  SPACE ∈ strip f ->
  _validate_multivalue_data data = Raise InvalidCharacter.
Proof.
  intros Hfr Hnd Hsp. apply validate_loop_Raise.
  - by eapply fragments_cons_strip.
  - rewrite Hfr. by apply loop_space.
Qed.

Lemma validate_multivalue_data_space_witness :
  _validate_multivalue_data (u "a,b c,b c") = Raise InvalidCharacter.
Proof.
  apply (validate_multivalue_data_space (u "a,b c,b c") [u "a"] (u "b c") [u "b c"]).
  - vm_compute; reflexivity.
  - vm_compute. apply NoDup_singleton.
  - vm_compute. apply list_elem_of_In. simpl. tauto.
Defined.

(** Claim C1 fails as stated: a fragment with a tab inside is accepted, and
    a fragment with a space that comes after a repeated fragment is never
    reached. *)
Lemma validate_multivalue_data_whitespace_counterexample :
  (isspace TAB = true
   /\ fragments (strip (u "a" ++ [TAB] ++ u "b")) = [u "a" ++ [TAB] ++ u "b"]
   /\ TAB ∈ strip (u "a" ++ [TAB] ++ u "b")
   /\ _validate_multivalue_data (u "a" ++ [TAB] ++ u "b")
      = Return [u "a" ++ [TAB] ++ u "b"])
  /\ (fragments (strip (u "a,a,b c")) = [u "a"; u "a"; u "b c"]
      /\ SPACE ∈ strip (u "b c")
      /\ _validate_multivalue_data (u "a,a,b c") = Raise DuplicateToken
      /\ DuplicateToken <> InvalidCharacter).
Proof.
  split.
  - split; [reflexivity|]. split; [by vm_compute|].
    split; [|by vm_compute]. vm_compute. apply list_elem_of_In. simpl. tauto.
  - split; [by vm_compute|]. split.
    + vm_compute. apply list_elem_of_In. simpl. tauto.
    + split; [by vm_compute|]. apply messages_distinct.
Qed.

(** Claim C9, as amended.  If some fragment, once trimmed, is not empty and
    equals an earlier fragment, and no fragment before it contains a space
    character, parsing fails with [DuplicateToken]; and the tokens of a
    successful parse are pairwise distinct. *)
Theorem validate_multivalue_data_duplicate data :
  (forall pre f post,
     fragments (strip data) = pre ++ f :: post ->
     Forall (fun g => SPACE ∉ strip g) pre ->
     strip f <> [] ->
     strip f ∈ strip <$> pre ->
     _validate_multivalue_data data = Raise DuplicateToken)
  /\ (forall items,
        _validate_multivalue_data data = Return items -> NoDup items).
Proof.
  split.
  - intros pre f post Hfr Hpre Hne Hin. apply validate_loop_Raise.
    + by eapply fragments_cons_strip.
    + rewrite Hfr. by apply loop_duplicate.
  - intros items H. by apply validate_tokens in H as (_ & ? & _).
Qed.

Lemma validate_multivalue_data_duplicate_witness :
  _validate_multivalue_data (u "a,a") = Raise DuplicateToken
  /\ NoDup [u "a"; u "b"].
Proof.
  split.
  - apply (proj1 (validate_multivalue_data_duplicate (u "a,a")) [u "a"] (u "a") []).
    + vm_compute; reflexivity.
    + repeat constructor. vm_compute. intros H%list_elem_of_In. simpl in H.
      destruct H as [H|H]; [discriminate H|exact H].
    + vm_compute. discriminate.
    + vm_compute. left.
  - apply (proj2 (validate_multivalue_data_duplicate (u "a,b"))).
    vm_compute; reflexivity.
Defined.

(** Claim C9 fails as stated: the third fragment of ["a,b c,a"] equals the
    accepted token ["a"], and the parse fails on the second fragment with
    [InvalidCharacter]. *)
Lemma validate_multivalue_data_duplicate_counterexample :
  fragments (strip (u "a,b c,a")) = [u "a"; u "b c"; u "a"]
  /\ multivalue_loop [] [u "a"] = Return [u "a"]
  /\ _validate_multivalue_data (u "a,b c,a") = Raise InvalidCharacter
  /\ InvalidCharacter <> DuplicateToken.
Proof.
  split; [by vm_compute|]. split; [by vm_compute|]. split; [by vm_compute|].
  intros E. symmetry in E. revert E. apply messages_distinct.
Qed.

(** ** Uniqueness checks *)

Lemma column_in_matches column tokens asset :
  Asset.column_in column tokens asset = true <-> matches column tokens asset.
Proof.
  unfold Asset.column_in, matches. destruct (column asset) as [t|].
  - rewrite bool_decide_eq_true. split; [by exists t|]. by intros (? & [= <-] & ?).
  - split; [done|]. by intros (? & [=] & _).
Qed.

Lemma objects_filter_matches objects column tokens :
  Asset.objects_filter objects column tokens =
  filter (matches column tokens) objects.
Proof.
  unfold Asset.objects_filter.
  induction objects as [|a objects IH]; [done|]. simpl. rewrite filter_cons.
  destruct (Asset.column_in column tokens a) eqn:E.
  - apply column_in_matches in E. rewrite decide_True by done. by f_equal.
  - rewrite decide_False; [done|]. intros H%column_in_matches. congruence.
Qed.

Lemma filter_nil_iff {A} (P : A -> Prop) `{forall x, Decision (P x)} (l : list A) :
  filter P l = [] <-> forall x, x ∈ l -> ~ P x.
Proof.
  split.
  - intros E x Hx HP. by eapply filter_nil_not_elem_of.
  - intros Hall. induction l as [|x l IH]; [done|].
    rewrite filter_cons_False by (apply Hall; left).
    apply IH. intros y Hy. apply Hall. by right.
Qed.

Lemma uniqueness_contract_filter
  (check : list Asset.t -> list ustring -> bool * list conflict) column :
  (forall objects tokens,
     check objects tokens =
     let assets := Asset.objects_filter objects column tokens in
     match assets with
     | [] => (true, [])
     | _ :: _ =>
         (false,
          List.map (fun a => (column a, Asset.id a, Asset.type a)) assets)
     end) ->
  uniqueness_contract check column.
Proof.
  intros Hcheck objects tokens. cbv zeta.
  rewrite Hcheck. cbv zeta. rewrite objects_filter_matches.
  rewrite <- (filter_nil_iff (matches column tokens) objects).
  pose proof (list_elem_of_filter (matches column tokens) objects) as Hrows.
  destruct (filter (matches column tokens) objects) as [|a rows].
  - split; [split; intros ?; done|]. split; [by left|].
    by intros c ?%elem_of_nil.
  - split; [split; intros ?; done|]. split; [by right|].
    unfold snd. intros c (a' & -> & Ha')%list_elem_of_fmap.
    apply Hrows in Ha' as [(t & Ht & Hin) Hobj].
    exists a', t. by rewrite Ht.
Qed.

Lemma uniqueness_contracts :
  uniqueness_contract _check_serial_numbers_uniqueness Asset.sn
  /\ uniqueness_contract _check_barcodes_uniqueness Asset.barcode.
Proof. split; by apply uniqueness_contract_filter. Qed.

(** Claim C3.  Each uniqueness check passes, with no conflict, exactly when
    no row of the table has the checked column among the tokens; otherwise
    it fails and reports, for every row that has, in table order, the
    column, the id and the type of the row, the column being one of the
    tokens.  With one row of serial number ["sn-123"] in the table, checking
    ["sn-123"] and ["sn-999"] fails with the one conflict for that row. *)
Theorem check_uniqueness_conflicts :
  uniqueness_contract _check_serial_numbers_uniqueness Asset.sn
  /\ uniqueness_contract _check_barcodes_uniqueness Asset.barcode
  /\ (forall id barcode type,
        _check_serial_numbers_uniqueness
          [Asset.mk id (Some (u "sn-123")) barcode type]
          [u "sn-123"; u "sn-999"]
        = (false, [(Some (u "sn-123"), id, type)])).
Proof.
  split; [|split].
  - by apply uniqueness_contract_filter.
  - by apply uniqueness_contract_filter.
  - intros id barcode type. by vm_compute.
Qed.

(** ** Size validation *)

Lemma elem_of_range lo hi z :
  z ∈ DeviceForm.range lo hi <-> (lo <= z < hi)%Z.
Proof.
  unfold DeviceForm.range. rewrite list_elem_of_fmap. split.
  - intros (i & -> & Hi%elem_of_seq). lia.
  - intros Hz. exists (Z.to_nat (z - lo)). split; [lia|].
    apply elem_of_seq. lia.
Qed.

(** Claim C10.  [clean_size] accepts an integer size exactly when it is
    between 0 and 65534 and raises a validation error otherwise; 65535 is
    rejected, with the message that names the range 0 to 65535. *)
Theorem clean_size_accepts_below_65535 (size : Z) :
  DeviceForm.clean_size (Some size) =
  (if decide (0 <= size <= 65534)%Z then Return (Some size)
   else Raise (ValidationError (u "Invalid size, use range 0 to 65535")))
  /\ (DeviceForm.clean_size (Some size) = Return (Some size) <->
      (0 <= size <= 65534)%Z)
  /\ DeviceForm.clean_size (Some 65535%Z) =
     Raise (ValidationError (u "Invalid size, use range 0 to 65535")).
Proof.
  assert (Hin : forall z : Z,
             Some z ∈ Some <$> DeviceForm.range 0 65535 <-> (0 <= z <= 65534)%Z).
  { intros z. rewrite list_elem_of_fmap. split.
    - intros (y & [= <-] & Hy%elem_of_range). lia.
    - intros Hz. exists z. split; [done|]. apply elem_of_range. lia. }
  assert (Heq : forall z : Z, DeviceForm.clean_size (Some z) =
             if decide (0 <= z <= 65534)%Z then Return (Some z)
             else Raise (ValidationError (u "Invalid size, use range 0 to 65535"))).
  { intros z. unfold DeviceForm.clean_size.
    destruct (decide (0 <= z <= 65534)%Z) as [Hz|Hz].
    - rewrite bool_decide_eq_false_2; [done|]. intros Hn. by apply Hn, Hin.
    - rewrite bool_decide_eq_true_2; [done|]. by intros ?%Hin. }
  split; [apply Heq|]. split.
  - rewrite Heq. by destruct (decide (0 <= size <= 65534)%Z).
  - by rewrite Heq.
Qed.

(** ** The pairing rule of device creation *)

(** Claim C5.  In [AddDeviceForm.clean], a barcode list that is not empty
    and whose length differs from that of the serial-number list records the
    [LengthMismatch] error on the [barcode] field, so that the form is not
    valid; an empty barcode list leaves the form as it was, whatever the
    serial-number list is.  So it is with two serial numbers and one
    barcode, and with two serial numbers and no barcode. *)
Theorem clean_barcode_pairing (self : AddDeviceForm.t) :
  let serial_numbers :=
    default [] (AddDeviceForm.cleaned_data self !! "sn"%string) in
  let barcodes :=
    default [] (AddDeviceForm.cleaned_data self !! "barcode"%string) in
  let self' := snd (AddDeviceForm.clean self) in
  (barcodes <> [] -> length serial_numbers <> length barcodes ->
   AddDeviceForm._errors self' !! "barcode"%string
   = Some AddDeviceForm.LengthMismatch
   /\ AddDeviceForm.is_valid self' = false)
  /\ (barcodes = [] -> self' = self)
  /\ fst (AddDeviceForm.clean self) = AddDeviceForm.cleaned_data self
  /\ (forall s1 s2 b1 errors,
        AddDeviceForm._errors
          (snd (AddDeviceForm.clean
                  (AddDeviceForm.mk
                     {[ "sn"%string := [s1; s2]; "barcode"%string := [b1] ]}
                     errors)))
        !! "barcode"%string = Some AddDeviceForm.LengthMismatch)
  /\ (forall s1 s2 errors,
        snd (AddDeviceForm.clean
               (AddDeviceForm.mk
                  {[ "sn"%string := [s1; s2]; "barcode"%string := [] ]} errors))
        = AddDeviceForm.mk
            {[ "sn"%string := [s1; s2]; "barcode"%string := [] ]} errors).
Proof.
  cbv zeta. unfold AddDeviceForm.clean. cbv zeta.
  split; [|split; [|split; [|split]]].
  - intros Hb Hlen.
    rewrite bool_decide_eq_true_2, bool_decide_eq_true_2 by done. simpl.
    split; [apply lookup_insert_eq|].
    unfold AddDeviceForm.is_valid. simpl. apply bool_decide_eq_false_2.
    apply insert_non_empty.
  - intros Hb. by rewrite bool_decide_eq_false_2 by (by intros []).
  - by destruct (_ && _).
  - intros s1 s2 b1 errors. simpl. apply lookup_insert_eq.
  - intros s1 s2 errors. done.
Qed.

(** ** Form construction *)

Section FormProperties.
Variable DC BO : list Choice.t.
Variable model_choices : string -> list (Z * string).

Lemma ModelForm_type_field Meta_fields kwargs fields :
  "type"%string ∈ Meta_fields ->
  ModelForm__init__ model_choices Meta_fields asset_declared_fields kwargs
  = Return fields ->
  fields !! "type"%string = Some (ModelField (model_choices "type"%string)).
Proof.
  intros Hin. unfold ModelForm__init__. case_bool_decide; [|done].
  intros [= <-]. unfold asset_declared_fields.
  rewrite !lookup_insert_ne by done.
  induction Meta_fields as [|name names IH]; [by apply elem_of_nil in Hin|].
  rewrite fmap_cons, list_to_map_cons.
  destruct (decide (name = "type"%string)) as [->|Hne].
  - apply lookup_insert_eq.
  - rewrite lookup_insert_ne by done. apply IH.
    by apply elem_of_cons in Hin as [?|?].
Qed.

Lemma asset_form_type_choices Meta_fields kwargs :
  "type"%string ∈ Meta_fields ->
  truthy (kwargs_get kwargs "mode") = true ->
  accepted_kwargs kwargs ->
  exists fields,
    asset_form__init__ DC BO model_choices Meta_fields kwargs = Return fields
    /\ type_choices fields =
       if decide (kwargs_get kwargs "mode" = PyStr "dc") then DC_type_choices DC
       else if decide (kwargs_get kwargs "mode" = PyStr "back_office") then
         BO_type_choices BO
       else model_choices "type"%string.
Proof.
  intros Hin Hmode Hacc. unfold asset_form__init__. cbv zeta. rewrite Hmode.
  destruct (ModelForm__init__ model_choices Meta_fields asset_declared_fields
              (delete "mode"%string kwargs)) as [fields|e] eqn:Hinit.
  2:{ unfold ModelForm__init__ in Hinit.
      by rewrite bool_decide_eq_true_2 in Hinit. }
  pose proof (ModelForm_type_field _ _ _ Hin Hinit) as Hty. simpl.
  unfold type_choices.
  repeat case_bool_decide.
  - eexists. split; [done|]. rewrite decide_True by done.
    by rewrite lookup_alter_eq, Hty.
  - eexists. split; [done|]. rewrite decide_False, decide_True by done.
    by rewrite lookup_alter_eq, Hty.
  - eexists. split; [done|]. rewrite !decide_False by done. by rewrite Hty.
Qed.

Lemma type_choices_disjoint :
  (forall c, c ∈ DC -> c ∉ BO) ->
  forall x, x ∈ DC_type_choices DC -> x ∉ BO_type_choices BO.
Proof.
  intros Hdisj x. unfold DC_type_choices, BO_type_choices.
  intros (c & -> & Hc)%list_elem_of_fmap (c' & E & Hc')%list_elem_of_fmap.
  apply (Hdisj c Hc). destruct c, c'. simpl in E. by injection E as -> ->.
Qed.

End FormProperties.

Lemma accepted_kwargs_mode_only (v : pyval) :
  accepted_kwargs {[ "mode"%string := v ]}.
Proof.
  unfold accepted_kwargs. rewrite delete_singleton_eq, dom_empty_L.
  apply empty_subseteq.
Qed.

(** Claim C2, as amended.  Constructing an asset form ([BaseAssetForm] or
    [BaseAddAssetForm]) with mode ["dc"] and with mode ["back_office"] gives
    as type choices the members of the data-center group and of the
    back-office group of [AssetType]; the two are non-empty and disjoint
    when the groups are.  With any other non-empty mode the type choices
    are those the model declares. *)
Theorem asset_form_type_choices_by_mode
  (DC BO : list Choice.t) (model_choices : string -> list (Z * string))
  (init : gmap string pyval -> result (gmap string field))
  (kwargs_dc kwargs_bo : gmap string pyval) :
  init = BaseAssetForm__init__ DC BO model_choices
  \/ init = BaseAddAssetForm__init__ DC BO model_choices ->
  kwargs_get kwargs_dc "mode" = PyStr "dc" ->
  kwargs_get kwargs_bo "mode" = PyStr "back_office" ->
  accepted_kwargs kwargs_dc -> accepted_kwargs kwargs_bo ->
  DC <> [] -> BO <> [] -> (forall c, c ∈ DC -> c ∉ BO) ->
  (exists fields_dc fields_bo,
     init kwargs_dc = Return fields_dc
     /\ init kwargs_bo = Return fields_bo
     /\ type_choices fields_dc = DC_type_choices DC
     /\ type_choices fields_bo = BO_type_choices BO
     /\ type_choices fields_dc <> []
     /\ type_choices fields_bo <> []
     /\ (forall x, x ∈ type_choices fields_dc -> x ∉ type_choices fields_bo))
  /\ (forall kwargs,
        truthy (kwargs_get kwargs "mode") = true ->
        kwargs_get kwargs "mode" <> PyStr "dc" ->
        kwargs_get kwargs "mode" <> PyStr "back_office" ->
        accepted_kwargs kwargs ->
        exists fields,
          init kwargs = Return fields
          /\ type_choices fields = model_choices "type"%string).
Proof.
  intros Hinit Hdc Hbo Hadc Habo HDC HBO Hdisj.
  assert (Hall : forall kwargs,
             truthy (kwargs_get kwargs "mode") = true ->
             accepted_kwargs kwargs ->
             exists fields,
               init kwargs = Return fields
               /\ type_choices fields =
                  if decide (kwargs_get kwargs "mode" = PyStr "dc") then
                    DC_type_choices DC
                  else if decide (kwargs_get kwargs "mode" = PyStr "back_office")
                  then BO_type_choices BO
                  else model_choices "type"%string).
  { intros kwargs Ht Ha.
    destruct Hinit as [-> | ->];
      unfold BaseAssetForm__init__, BaseAddAssetForm__init__;
      apply asset_form_type_choices; try done.
    - unfold BaseAssetForm_Meta_fields. left.
    - unfold BaseAddAssetForm_Meta_fields. left. }
  split.
  - destruct (Hall kwargs_dc) as (fields_dc & Hfd & Htd); [by rewrite Hdc|done|].
    destruct (Hall kwargs_bo) as (fields_bo & Hfb & Htb); [by rewrite Hbo|done|].
    rewrite Hdc in Htd. rewrite Hbo in Htb.
    rewrite decide_True in Htd by done.
    rewrite decide_False, decide_True in Htb by done.
    exists fields_dc, fields_bo. rewrite Htd, Htb.
    split; [done|]. split; [done|]. split; [done|]. split; [done|].
    split; [by destruct DC|]. split; [by destruct BO|].
    by apply type_choices_disjoint.
  - intros kwargs Ht Hndc Hnbo Ha.
    destruct (Hall kwargs Ht Ha) as (fields & Hf & Hty).
    exists fields. split; [done|]. by rewrite !decide_False in Hty.
Qed.

Lemma asset_form_type_choices_by_mode_witness :
  exists fields_dc fields_bo,
    BaseAddAssetForm__init__ AssetType_DC_instance AssetType_BO_instance
      model_choices_instance {[ "mode"%string := PyStr "dc" ]}
    = Return fields_dc
    /\ BaseAddAssetForm__init__ AssetType_DC_instance AssetType_BO_instance
         model_choices_instance {[ "mode"%string := PyStr "back_office" ]}
       = Return fields_bo
    /\ type_choices fields_dc = [(1%Z, "data center"%string)]
    /\ type_choices fields_bo =
       [(101%Z, "back office"%string); (102%Z, "administration"%string)].
Proof.
  destruct (asset_form_type_choices_by_mode
              AssetType_DC_instance AssetType_BO_instance model_choices_instance
              _ {[ "mode"%string := PyStr "dc" ]}
              {[ "mode"%string := PyStr "back_office" ]} (or_intror eq_refl))
    as [(fields_dc & fields_bo & H1 & H2 & H3 & H4 & _) _].
  - reflexivity.
  - reflexivity.
  - apply accepted_kwargs_mode_only.
  - apply accepted_kwargs_mode_only.
  - discriminate.
  - discriminate.
  - intros c Hc Hc'. apply list_elem_of_In in Hc, Hc'. simpl in Hc, Hc'.
    destruct Hc as [<-|[]]. destruct Hc' as [Hc'|[Hc'|[]]]; discriminate Hc'.
  - exists fields_dc, fields_bo. auto.
Defined.

(** Claim C2 fails as stated: with the mode ["bo"], which is neither ["dc"]
    nor ["back_office"], the form keeps the type choices of the model, and
    the data-center type is among them as it is among those of mode
    ["dc"]. *)
Lemma asset_form_type_choices_counterexample :
  exists fields_dc fields_other,
    BaseAddAssetForm__init__ AssetType_DC_instance AssetType_BO_instance
      model_choices_instance {[ "mode"%string := PyStr "dc" ]}
    = Return fields_dc
    /\ BaseAddAssetForm__init__ AssetType_DC_instance AssetType_BO_instance
         model_choices_instance {[ "mode"%string := PyStr "bo" ]}
       = Return fields_other
    /\ (1%Z, "data center"%string) ∈ type_choices fields_dc
    /\ (1%Z, "data center"%string) ∈ type_choices fields_other.
Proof.
  destruct (asset_form_type_choices AssetType_DC_instance AssetType_BO_instance
              model_choices_instance BaseAddAssetForm_Meta_fields
              {[ "mode"%string := PyStr "dc" ]})
    as (fields_dc & Hd & Htd);
    [left|reflexivity|apply accepted_kwargs_mode_only|].
  destruct (asset_form_type_choices AssetType_DC_instance AssetType_BO_instance
              model_choices_instance BaseAddAssetForm_Meta_fields
              {[ "mode"%string := PyStr "bo" ]})
    as (fields_other & Ho & Hto);
    [left|reflexivity|apply accepted_kwargs_mode_only|].
  exists fields_dc, fields_other.
  split; [exact Hd|]. split; [exact Ho|].
  rewrite Htd, Hto. split; left.
Qed.

Lemma BasePartForm_init_truthy model_choices kwargs :
  truthy (kwargs_get kwargs "mode") = true ->
  forall msg,
    BasePartForm__init__ model_choices kwargs <> Raise (ModeNotSetException msg).
Proof.
  intros Ht msg. unfold BasePartForm__init__. cbv zeta. rewrite Ht.
  destruct (ModelForm__init__ model_choices _ [] _) as [fields|e] eqn:E; simpl.
  - by destruct (PartInfo_instance (delete "mode"%string kwargs)).
  - unfold ModelForm__init__ in E. case_bool_decide; [done|].
    by injection E as <-.
Qed.

(** Claim C6, as amended.  [BasePartForm.__init__] raises
    [ModeNotSetException] exactly when the mode is absent, [None] or the
    empty string; so it does when no [mode] keyword is passed, and it does
    not when the mode is a non-empty string.  The exception is raised by
    the constructor, and it is not a [ValidationError]. *)
Theorem BasePartForm_init_mode_not_set
  (model_choices : string -> list (Z * string)) (kwargs : gmap string pyval) :
  (BasePartForm__init__ model_choices kwargs = Raise mode_not_given <->
   truthy (kwargs_get kwargs "mode") = false)
  /\ (kwargs !! "mode"%string = None ->
      BasePartForm__init__ model_choices kwargs = Raise mode_not_given)
  /\ (forall s msg,
        kwargs !! "mode"%string = Some (PyStr s) -> s <> ""%string ->
        BasePartForm__init__ model_choices kwargs
        <> Raise (ModeNotSetException msg))
  /\ (forall msg, mode_not_given <> ValidationError msg).
Proof.
  assert (Hfalse : truthy (kwargs_get kwargs "mode") = false ->
                   BasePartForm__init__ model_choices kwargs = Raise mode_not_given).
  { intros Hf. unfold BasePartForm__init__. cbv zeta. by rewrite Hf. }
  split; [|split; [|split]].
  - split; [|done]. intros Hr.
    destruct (truthy (kwargs_get kwargs "mode")) eqn:Ht; [|done].
    by apply (BasePartForm_init_truthy model_choices) with (msg := u "mode argument not given.") in Ht.
  - intros Hn. apply Hfalse. unfold kwargs_get. by rewrite Hn.
  - intros s msg Hs Hne. apply BasePartForm_init_truthy.
    unfold kwargs_get. rewrite Hs. simpl. by apply bool_decide_eq_true_2.
  - done.
Qed.

Lemma BasePartForm_init_mode_not_set_witness :
  BasePartForm__init__ model_choices_instance ∅ = Raise mode_not_given
  /\ BasePartForm__init__ model_choices_instance {[ "mode"%string := PyStr "dc" ]}
     <> Raise mode_not_given.
Proof.
  split.
  - apply (BasePartForm_init_mode_not_set model_choices_instance ∅).
    reflexivity.
  - apply (proj1 (proj2 (proj2 (BasePartForm_init_mode_not_set
                                  model_choices_instance
                                  {[ "mode"%string := PyStr "dc" ]})))
             "dc"%string).
    + reflexivity.
    + discriminate.
Defined.

(** Claim C6 fails as stated: a part form constructed with the mode [""]
    is constructed with a mode selector, and the constructor raises
    [ModeNotSetException]. *)
Lemma BasePartForm_init_empty_mode_counterexample :
  ({[ "mode"%string := PyStr "" ]} : gmap string pyval) !! "mode"%string
  = Some (PyStr "")
  /\ BasePartForm__init__ model_choices_instance {[ "mode"%string := PyStr "" ]}
     = Raise (ModeNotSetException (u "mode argument not given.")).
Proof. split; reflexivity. Qed.

(** * Further properties *)

(** ** More on the multi-value parser *)

Section MoreLoop.
Implicit Types (acc items frags : list ustring) (f s t : ustring).

Lemma tokens_of_app frags frags' :
  tokens_of (frags ++ frags') = tokens_of frags ++ tokens_of frags'.
Proof. unfold tokens_of. by rewrite fmap_app, filter_app. Qed.

(** The pass succeeds on fragments whose tokens are distinct and free of
    spaces. *)
Lemma loop_accepts acc frags :
  [] ∉ acc ->
  NoDup (acc ++ tokens_of frags) ->
  Forall (fun x => SPACE ∉ x) (tokens_of frags) ->
  multivalue_loop acc frags = Return (acc ++ tokens_of frags).
Proof.
  revert acc. induction frags as [|f frags IH]; intros acc Hacc Hnd Hsp.
  - simpl. by rewrite app_nil_r.
  - rewrite tokens_of_cons in *. simpl multivalue_loop; cbv zeta.
    destruct (decide (strip f <> [])) as [Hf|Hf].
    + inversion Hsp as [|? ? Hsf Hsp']; subst.
      rewrite bool_decide_eq_false_2.
      2:{ apply NoDup_app in Hnd as (_ & Hd & _). intros Hin.
          apply (Hd _ Hin). by left. }
      rewrite bool_decide_eq_false_2 by done.
      rewrite bool_decide_eq_true_2 by done.
      rewrite IH.
      * by rewrite <- app_assoc.
      * intros [?|?%list_elem_of_singleton]%elem_of_app; [done|].
        by apply Hf.
      * by rewrite <- app_assoc.
      * done.
    + apply dec_stable in Hf. rewrite Hf.
      rewrite bool_decide_eq_false_2 by done.
      rewrite bool_decide_eq_false_2 by (by intros ?%not_elem_of_nil).
      rewrite bool_decide_eq_false_2 by (by intros []).
      by apply IH.
Qed.

End MoreLoop.

(** Property X1.  Parsing succeeds exactly when the trimmed, non-empty
    fragments of the trimmed input are at least one, pairwise distinct and
    free of the space character; the result is then the list of them. *)
Theorem validate_multivalue_data_accepts_iff data items :
  _validate_multivalue_data data = Return items <->
  items = tokens_of (fragments (strip data))
  /\ items <> [] /\ NoDup items /\ Forall (fun x => SPACE ∉ x) items.
Proof.
  split.
  - intros H. pose proof H as (_ & _ & Hne)%validate_Return.
    apply validate_tokens in H as (-> & Hnd & Hall).
    split; [done|]. split; [done|]. split; [done|].
    eapply Forall_impl; [exact Hall|]. by intros x (_ & _ & _ & ?).
  - intros (-> & Hne & Hnd & Hsp). apply validate_Return.
    split; [|split; [|done]].
    + intros E. by rewrite fragments_strip_nil in Hne.
    + by apply (loop_accepts []); [apply not_elem_of_nil| |].
Qed.

(** Property X2.  The parser ends in one of four ways: it returns a
    non-empty list, or it raises the validation error of the empty field,
    of the duplicate or of the white character; it raises nothing else. *)
Theorem validate_multivalue_data_outcomes data :
  (exists items, _validate_multivalue_data data = Return items /\ items <> [])
  \/ _validate_multivalue_data data = Raise EmptyInput
  \/ _validate_multivalue_data data = Raise DuplicateToken
  \/ _validate_multivalue_data data = Raise InvalidCharacter.
Proof.
  unfold _validate_multivalue_data. cbv zeta.
  case_bool_decide; [by right; left|].
  destruct (multivalue_loop [] (fragments (strip data))) as [r|e] eqn:Hloop;
    simpl.
  - case_bool_decide; [by right; left|]. left. by exists r.
  - right. right. by destruct (loop_Raise _ _ _ Hloop) as [-> | ->]; [left|right].
Qed.

(** Property X3.  Every token of a successful parse is non-empty, has no
    white space at its start or end, contains no space, comma or newline,
    and is made of code points of the input. *)
Theorem validate_multivalue_data_token_shape data items token :
  _validate_multivalue_data data = Return items ->
  token ∈ items ->
  token <> []
  /\ strip token = token
  /\ (forall c, head token = Some c -> isspace c = false)
  /\ (forall c, last token = Some c -> isspace c = false)
  /\ (SPACE ∉ token) /\ (COMMA ∉ token) /\ (NEWLINE ∉ token)
  /\ (forall c, c ∈ token -> c ∈ data).
Proof.
  intros H Hin. pose proof H as (Heq & _ & Hall)%validate_tokens.
  rewrite Forall_forall in Hall.
  destruct (Hall _ Hin) as (Htr & Hunb & Hne & Hsp).
  split; [done|]. split; [by apply trimmed_strip|].
  destruct Htr as [Hs He]. split; [|split; [|split; [done|split; [|split]]]].
  - intros c Hc. destruct token; [done|]. by injection Hc as ->.
  - intros c Hc. rewrite <- head_reverse in Hc.
    destruct (reverse token); [done|]. by injection Hc as ->.
  - intros Hc. unfold unbroken in Hunb. rewrite Forall_forall in Hunb.
    by specialize (Hunb _ Hc).
  - intros Hc. unfold unbroken in Hunb. rewrite Forall_forall in Hunb.
    by specialize (Hunb _ Hc).
  - intros c Hc. subst items. unfold tokens_of in Hin.
    apply list_elem_of_filter in Hin as [_ (f & -> & Hf)%list_elem_of_fmap].
    apply elem_of_strip in Hc. apply elem_of_strip.
    unfold fragments in Hf. apply list_elem_of_filter in Hf as [_ Hf].
    clear -Hc Hf. revert f Hf Hc. generalize (strip data) as s.
    induction s as [|d s IH]; intros f Hf Hc; simpl in Hf.
    + apply list_elem_of_singleton in Hf as ->. by apply elem_of_nil in Hc.
    + destruct (is_sep d).
      * apply elem_of_cons in Hf as [->|Hf]; [by apply elem_of_nil in Hc|].
        right. by eapply IH.
      * destruct (re_split s) as [|p ps] eqn:E.
        -- apply list_elem_of_singleton in Hf as ->.
           apply list_elem_of_singleton in Hc as ->. left.
        -- apply elem_of_cons in Hf as [->|Hf].
           ++ apply elem_of_cons in Hc as [->|Hc]; [left|right].
              eapply IH; [left|done].
           ++ right. eapply IH; [by right|done].
Qed.

Lemma validate_multivalue_data_token_shape_witness :
  u "y2" <> [] /\ (SPACE ∉ u "y2").
Proof.
  destruct (validate_multivalue_data_token_shape
              (u " x1, y2 ") [u "x1"; u "y2"] (u "y2"))
    as (H1 & _ & _ & _ & H2 & _).
  - vm_compute; reflexivity.
  - right. left.
  - split; [exact H1|exact H2].
Defined.

Section Blank.
Implicit Types (s t ws : ustring) (c : N).

Lemma lstrip_blank_app ws s :
  Forall (fun c => isspace c = true) ws -> lstrip (ws ++ s) = lstrip s.
Proof. induction 1 as [|c ws Hc _ IH]; simpl; [done|]. by rewrite Hc. Qed.

Lemma lstrip_nil_blank s :
  lstrip s = [] -> Forall (fun c => isspace c = true) s.
Proof.
  induction s as [|c s IH]; simpl; [done|].
  destruct (isspace c) eqn:Hc; [|done]. intros H. constructor; auto.
Qed.

Lemma lstrip_app_black s t : lstrip s <> [] -> lstrip (s ++ t) = lstrip s ++ t.
Proof.
  induction s as [|c s IH]; simpl; [done|]. by destruct (isspace c).
Qed.

Lemma rstrip_app_blank s ws :
  Forall (fun c => isspace c = true) ws -> rstrip (s ++ ws) = rstrip s.
Proof.
  intros Hws. unfold rstrip. rewrite reverse_app, lstrip_blank_app; [done|].
  by apply Forall_reverse.
Qed.

Lemma rstrip_snoc s c :
  rstrip (s ++ [c]) = if isspace c then rstrip s else s ++ [c].
Proof.
  unfold rstrip. rewrite reverse_app. simpl.
  destruct (isspace c); [done|]. by rewrite reverse_cons, reverse_involutive.
Qed.

Lemma strip_blank_around ws s ws' :
  Forall (fun c => isspace c = true) ws ->
  Forall (fun c => isspace c = true) ws' ->
  strip (ws ++ s ++ ws') = strip s.
Proof.
  intros Hws Hws'. unfold strip. rewrite lstrip_blank_app by done.
  destruct (decide (lstrip s = [])) as [E|E].
  - rewrite E. rewrite <- (app_nil_r (s ++ ws')), lstrip_blank_app; [done|].
    apply Forall_app. split; [by apply lstrip_nil_blank|done].
  - rewrite lstrip_app_black by done. by apply rstrip_app_blank.
Qed.

Lemma strip_snoc_blank s c : isspace c = true -> strip (s ++ [c]) = strip s.
Proof.
  intros Hc. apply (strip_blank_around [] s [c]); [done|]. by repeat constructor.
Qed.

Lemma strip_cons_blank s c : isspace c = true -> strip (c :: s) = strip s.
Proof. intros Hc. unfold strip. simpl. by rewrite Hc. Qed.

End Blank.

(** Property X4.  White space before and after the whole input, blank
    lines included, never changes what the parser does. *)
Theorem validate_multivalue_data_ignores_outer_blanks ws data ws' :
  Forall (fun c => isspace c = true) ws ->
  Forall (fun c => isspace c = true) ws' ->
  _validate_multivalue_data (ws ++ data ++ ws') = _validate_multivalue_data data.
Proof.
  intros Hws Hws'. unfold _validate_multivalue_data. cbv zeta.
  by rewrite strip_blank_around.
Qed.

Lemma validate_multivalue_data_ignores_outer_blanks_witness :
  _validate_multivalue_data ([NEWLINE; SPACE] ++ u "a,b" ++ [TAB; NEWLINE])
  = _validate_multivalue_data (u "a,b").
Proof.
  apply validate_multivalue_data_ignores_outer_blanks;
    repeat constructor.
Defined.

Section Pieces.
Implicit Types (acc frags pieces : list ustring) (s t f : ustring) (c : N).

Lemma loop_tokens_of acc frags :
  [] ∉ acc -> multivalue_loop acc frags = multivalue_loop acc (tokens_of frags).
Proof.
  revert acc. induction frags as [|f frags IH]; intros acc Hacc; [done|].
  rewrite tokens_of_cons. destruct (decide (strip f <> [])) as [Hf|Hf].
  - simpl multivalue_loop; cbv zeta. rewrite strip_idemp.
    repeat case_bool_decide; try done.
    apply IH. intros [?|?%list_elem_of_singleton]%elem_of_app; [done|].
    by apply Hf.
  - apply dec_stable in Hf. simpl multivalue_loop; cbv zeta. rewrite Hf.
    rewrite bool_decide_eq_false_2 by done.
    rewrite bool_decide_eq_false_2 by (by intros ?%not_elem_of_nil).
    rewrite bool_decide_eq_false_2 by (by intros []).
    by apply IH.
Qed.

Lemma tokens_of_filter pieces :
  tokens_of (filter (fun x => x <> []) pieces) = tokens_of pieces.
Proof.
  induction pieces as [|p pieces IH]; [done|]. rewrite filter_cons.
  destruct (decide (p <> [])) as [Hp|Hp].
  - by rewrite !tokens_of_cons, IH.
  - apply dec_stable in Hp. subst p. rewrite tokens_of_cons.
    by rewrite decide_False by (by intros []).
Qed.

Lemma tokens_of_re_split_lstrip s :
  tokens_of (re_split (lstrip s)) = tokens_of (re_split s).
Proof.
  induction s as [|c s IH]; [done|]. simpl lstrip.
  destruct (isspace c) eqn:Hc; [|done]. rewrite IH. simpl re_split.
  destruct (is_sep c).
  - rewrite tokens_of_cons. by rewrite decide_False by (by intros []).
  - pose proof (re_split_not_nil s). destruct (re_split s) as [|p ps]; [done|].
    by rewrite !tokens_of_cons, strip_cons_blank.
Qed.

Lemma re_split_snoc s c :
  exists ps p,
    re_split s = ps ++ [p]
    /\ re_split (s ++ [c]) =
       if is_sep c then ps ++ [p; []] else ps ++ [p ++ [c]].
Proof.
  induction s as [|d s (ps & p & Hs & Hsc)].
  - exists [], []. split; [done|]. simpl. by destruct (is_sep c).
  - simpl. rewrite Hs, Hsc. destruct (is_sep d).
    + exists ([] :: ps), p. split; [done|]. by destruct (is_sep c).
    + destruct ps as [|q ps].
      * exists [], (d :: p). split; [done|]. by destruct (is_sep c).
      * exists ((d :: q) :: ps), p. split; [done|]. by destruct (is_sep c).
Qed.

Lemma tokens_of_re_split_rstrip s :
  tokens_of (re_split (rstrip s)) = tokens_of (re_split s).
Proof.
  induction s as [|c s IH] using rev_ind; [done|].
  rewrite rstrip_snoc. destruct (isspace c) eqn:Hc; [|done]. rewrite IH.
  destruct (re_split_snoc s c) as (ps & p & -> & ->).
  destruct (is_sep c); rewrite !tokens_of_app.
  - change [p; []] with ([p] ++ [[]]). by rewrite tokens_of_app, app_nil_r.
  - by rewrite !(tokens_of_cons _ []), strip_snoc_blank.
Qed.

Lemma tokens_of_fragments_strip s :
  tokens_of (fragments (strip s)) = tokens_of (re_split s).
Proof.
  unfold fragments, strip.
  by rewrite tokens_of_filter, tokens_of_re_split_rstrip,
    tokens_of_re_split_lstrip.
Qed.

End Pieces.

Lemma validate_loop_pieces data :
  _validate_multivalue_data data =
  items ← multivalue_loop [] (re_split data);
  if bool_decide (items = []) then Raise EmptyInput else Return items.
Proof.
  rewrite (loop_tokens_of [] (re_split data)) by apply not_elem_of_nil.
  rewrite <- tokens_of_fragments_strip.
  rewrite <- (loop_tokens_of [] (fragments (strip data)))
    by apply not_elem_of_nil.
  unfold _validate_multivalue_data. cbv zeta. case_bool_decide as Hd; [|done].
  by rewrite Hd.
Qed.

(** Property X5.  The parser does what its loop does on all the pieces of
    the input as it is given, followed by the test for an empty result: the
    first trimming, the first test for an empty input and the dropping of
    the empty pieces change nothing. *)
Theorem validate_multivalue_data_by_pieces data :
  _validate_multivalue_data data =
  match multivalue_loop [] (re_split data) with
  | Return [] => Raise EmptyInput
  | Return items => Return items
  | Raise e => Raise e
  end.
Proof.
  rewrite validate_loop_pieces.
  destruct (multivalue_loop [] (re_split data)) as [items|e]; simpl; [|done].
  case_bool_decide as Hi.
  - by rewrite Hi.
  - by destruct items.
Qed.

Lemma re_split_same_breaks s s' :
  Forall2 (fun c c' => c = c' \/ is_sep c = true /\ is_sep c' = true) s s' ->
  re_split s' = re_split s.
Proof.
  induction 1 as [|c c' s s' Hc _ IH]; [done|]. simpl. rewrite IH.
  destruct Hc as [->|[-> ->]]; done.
Qed.

(** Property X6.  A comma and a newline are interchangeable: replacing any
    of the separators of the input by the other one changes nothing of what
    the parser does. *)
Theorem validate_multivalue_data_separators_alike data data' :
  Forall2 (fun c c' => c = c' \/ is_sep c = true /\ is_sep c' = true)
    data data' ->
  _validate_multivalue_data data' = _validate_multivalue_data data.
Proof.
  intros H. rewrite !validate_loop_pieces.
  by rewrite (re_split_same_breaks _ _ H).
Qed.

Lemma validate_multivalue_data_separators_alike_witness :
  _validate_multivalue_data (u "a" ++ [NEWLINE] ++ u "b,c")
  = _validate_multivalue_data (u "a,b" ++ [NEWLINE] ++ u "c").
Proof.
  apply validate_multivalue_data_separators_alike.
  vm_compute.
  repeat (constructor; [first [left; reflexivity | right; split; reflexivity]|]).
  constructor.
Defined.

(** ** More on the uniqueness checks *)

Lemma check_sn_filter objects tokens :
  _check_serial_numbers_uniqueness objects tokens =
  let rows := filter (matches Asset.sn tokens) objects in
  match rows with
  | [] => (true, [])
  | _ :: _ =>
      (false, (fun a => (Asset.sn a, Asset.id a, Asset.type a)) <$> rows)
  end.
Proof.
  unfold _check_serial_numbers_uniqueness. cbv zeta.
  rewrite objects_filter_matches.
  by destruct (filter (matches Asset.sn tokens) objects).
Qed.

Lemma check_barcode_filter objects tokens :
  _check_barcodes_uniqueness objects tokens =
  let rows := filter (matches Asset.barcode tokens) objects in
  match rows with
  | [] => (true, [])
  | _ :: _ =>
      (false, (fun a => (Asset.barcode a, Asset.id a, Asset.type a)) <$> rows)
  end.
Proof.
  unfold _check_barcodes_uniqueness. cbv zeta.
  rewrite objects_filter_matches.
  by destruct (filter (matches Asset.barcode tokens) objects).
Qed.

Lemma check_sn_passes objects tokens :
  fst (_check_serial_numbers_uniqueness objects tokens) = true <->
  forall asset, asset ∈ objects -> ~ matches Asset.sn tokens asset.
Proof.
  rewrite check_sn_filter, <- (filter_nil_iff (matches Asset.sn tokens) objects).
  cbv zeta. destruct (filter (matches Asset.sn tokens) objects); simpl;
    split; intros ?; done.
Qed.

Lemma check_barcode_passes objects tokens :
  fst (_check_barcodes_uniqueness objects tokens) = true <->
  forall asset, asset ∈ objects -> ~ matches Asset.barcode tokens asset.
Proof.
  rewrite check_barcode_filter,
    <- (filter_nil_iff (matches Asset.barcode tokens) objects).
  cbv zeta. destruct (filter (matches Asset.barcode tokens) objects); simpl;
    split; intros ?; done.
Qed.

(** Property X7.  A check against an empty list of tokens passes on every
    table, a check against an empty table passes for every list, and a row
    whose checked column is NULL is never among the conflicts. *)
Theorem check_uniqueness_edges objects tokens :
  _check_serial_numbers_uniqueness objects [] = (true, [])
  /\ _check_barcodes_uniqueness objects [] = (true, [])
  /\ _check_serial_numbers_uniqueness [] tokens = (true, [])
  /\ _check_barcodes_uniqueness [] tokens = (true, [])
  /\ (forall c, c ∈ snd (_check_serial_numbers_uniqueness objects tokens) ->
      fst (fst c) <> None)
  /\ (forall c, c ∈ snd (_check_barcodes_uniqueness objects tokens) ->
      fst (fst c) <> None)
  /\ (forall asset,
        Asset.barcode asset = None ->
        _check_barcodes_uniqueness (asset :: objects) tokens
        = _check_barcodes_uniqueness objects tokens).
Proof.
  assert (Hnone : forall column,
             filter (matches column []) objects = []).
  { intros column. apply filter_nil_iff. intros a _ (t & _ & Ht).
    by apply elem_of_nil in Ht. }
  split; [rewrite check_sn_filter; cbv zeta; by rewrite Hnone|].
  split; [rewrite check_barcode_filter; cbv zeta; by rewrite Hnone|].
  split; [done|]. split; [done|].
  destruct uniqueness_contracts as [Hsn Hbc].
  split; [|split].
  - intros c Hc. destruct (Hsn objects tokens) as (_ & _ & H).
    by destruct (H c Hc) as (? & ? & _ & _ & _ & ->).
  - intros c Hc. destruct (Hbc objects tokens) as (_ & _ & H).
    by destruct (H c Hc) as (? & ? & _ & _ & _ & ->).
  - intros asset Hn. rewrite !check_barcode_filter. cbv zeta.
    rewrite filter_cons_False; [done|]. intros (t & Ht & _). congruence.
Qed.

Lemma conflict_tokens_rows column tokens (rows : list Asset.t) :
  Forall (matches column tokens) rows ->
  conflict_tokens ((fun a => (column a, Asset.id a, Asset.type a)) <$> rows)
  = omap column rows.
Proof.
  induction 1 as [|a rows (t & Ht & _) _ IH]; [done|].
  unfold conflict_tokens in *. rewrite fmap_cons. simpl List.map.
  rewrite IH. simpl. by rewrite Ht.
Qed.

Lemma filter_Forall {A} (P : A -> Prop) `{forall x, Decision (P x)} (l : list A) :
  Forall P (filter P l).
Proof. apply Forall_forall. by intros x [? _]%list_elem_of_filter. Qed.

Lemma conflict_tokens_sn objects tokens :
  conflict_tokens (snd (_check_serial_numbers_uniqueness objects tokens))
  = omap Asset.sn (filter (matches Asset.sn tokens) objects).
Proof.
  rewrite check_sn_filter. cbv zeta.
  pose proof (filter_Forall (matches Asset.sn tokens) objects) as Hall.
  destruct (filter (matches Asset.sn tokens) objects) as [|a rows]; [done|].
  unfold snd. by apply (conflict_tokens_rows _ tokens).
Qed.

Lemma conflict_tokens_barcode objects tokens :
  conflict_tokens (snd (_check_barcodes_uniqueness objects tokens))
  = omap Asset.barcode (filter (matches Asset.barcode tokens) objects).
Proof.
  rewrite check_barcode_filter. cbv zeta.
  pose proof (filter_Forall (matches Asset.barcode tokens) objects) as Hall.
  destruct (filter (matches Asset.barcode tokens) objects) as [|a rows]; [done|].
  unfold snd. by apply (conflict_tokens_rows _ tokens).
Qed.

Lemma elem_of_omap_filter_matches column (objects : list Asset.t)
  (tokens : list ustring) (t : ustring) :
  t ∈ omap column (filter (matches column tokens) objects) <->
  t ∈ tokens /\ exists asset, asset ∈ objects /\ column asset = Some t.
Proof.
  rewrite list_elem_of_omap. split.
  - intros (a & [(t' & Ht' & Hin) Ha]%list_elem_of_filter & Ht).
    assert (t' = t) as -> by congruence. split; [done|]. by exists a.
  - intros (Hin & a & Ha & Ht). exists a. split; [|done].
    apply list_elem_of_filter. split; [|done]. by exists t.
Qed.

Lemma NoDup_omap_filter {A B} (f : A -> option B) (P : A -> Prop)
  `{forall x, Decision (P x)} (l : list A) :
  NoDup (omap f l) -> NoDup (omap f (filter P l)).
Proof.
  induction l as [|a l IH]; [done|]. rewrite filter_cons. simpl.
  destruct (f a) as [b|] eqn:Hb.
  - intros [Hnin Hnd]%NoDup_cons. destruct (decide (P a)); [|by apply IH].
    simpl. rewrite Hb. apply NoDup_cons. split; [|by apply IH].
    intros (a' & [_ Ha']%list_elem_of_filter & Hfa')%list_elem_of_omap.
    apply Hnin, list_elem_of_omap. by exists a'.
  - intros Hnd. destruct (decide (P a)); [|by apply IH].
    simpl. rewrite Hb. by apply IH.
Qed.

(** Property X8.  The tokens named by the conflicts of the serial-number
    check are the given tokens that some row has as serial number.  When
    the serial numbers of the table are pairwise distinct, as its unique
    constraint has them, no token is named twice, and distinct tokens get
    at most as many conflicts as there are tokens. *)
Theorem check_serial_numbers_conflict_tokens objects tokens :
  NoDup (omap Asset.sn objects) ->
  let not_unique := snd (_check_serial_numbers_uniqueness objects tokens) in
  (forall t, t ∈ conflict_tokens not_unique <->
             t ∈ tokens /\ exists asset, asset ∈ objects /\ Asset.sn asset = Some t)
  /\ NoDup (conflict_tokens not_unique)
  /\ (NoDup tokens -> length not_unique <= length tokens)%nat.
Proof.
  intros Hnd. cbv zeta. pose proof (conflict_tokens_sn objects tokens) as Heq.
  split; [|split].
  - intros t. rewrite Heq. apply elem_of_omap_filter_matches.
  - rewrite Heq. by apply NoDup_omap_filter.
  - intros Htok.
    assert (Hlen : length (snd (_check_serial_numbers_uniqueness objects tokens))
                   = length (conflict_tokens
                               (snd (_check_serial_numbers_uniqueness objects tokens)))).
    { unfold conflict_tokens. by rewrite length_map. }
    rewrite Hlen, Heq. apply submseteq_length, NoDup_submseteq.
    + by apply NoDup_omap_filter.
    + by intros t [? _]%elem_of_omap_filter_matches.
Qed.

Lemma check_serial_numbers_conflict_tokens_witness :
  NoDup (conflict_tokens
           (snd (_check_serial_numbers_uniqueness
                   [Asset.mk 1 (Some (u "s1")) None 1;
                    Asset.mk 2 (Some (u "s2")) None 1;
                    Asset.mk 3 None None 101]
                   [u "s2"; u "s9"; u "s1"]))).
Proof.
  apply (check_serial_numbers_conflict_tokens
           [Asset.mk 1 (Some (u "s1")) None 1;
            Asset.mk 2 (Some (u "s2")) None 1;
            Asset.mk 3 None None 101]
           [u "s2"; u "s9"; u "s1"]).
  vm_compute. apply NoDup_cons. split.
  - intros H. apply list_elem_of_singleton in H. discriminate H.
  - apply NoDup_singleton.
Defined.


Lemma sn_additional_validation_passes objects serial_numbers :
  _sn_additional_validation objects serial_numbers = Return tt <->
  forall asset, asset ∈ objects -> ~ matches Asset.sn serial_numbers asset.
Proof.
  unfold _sn_additional_validation.
  pose proof (check_sn_passes objects serial_numbers) as Hpass.
  destruct (_check_serial_numbers_uniqueness objects serial_numbers)
    as [[|] not_unique]; simpl in *.
  - split; [intros _; by apply Hpass|done].
  - split; [done|]. intros H. by apply Hpass in H.
Qed.

Lemma clean_sn_Return objects sn data :
  AddDeviceForm.clean_sn objects sn = Return data <->
  _validate_multivalue_data sn = Return data
  /\ forall asset, asset ∈ objects -> ~ matches Asset.sn data asset.
Proof.
  unfold AddDeviceForm.clean_sn.
  destruct (_validate_multivalue_data sn) as [items|e]; simpl.
  - split.
    + destruct (_sn_additional_validation objects items) as [[]|e] eqn:E;
        simpl; [|done].
      intros [= <-]. split; [done|].
      by apply sn_additional_validation_passes.
    + intros [[= ->] Hp%sn_additional_validation_passes]. by rewrite Hp.
  - split; [done|]. by intros [? _].
Qed.

(** Property X10.  [clean_sn], of the part form and of the device form
    alike, returns a list exactly when the parser returns it and no row of
    the table has one of its serial numbers; and an error of the parser is
    the error of [clean_sn] whatever the table holds. *)
Theorem clean_sn_outcome objects sn :
  (forall data,
     AddDeviceForm.clean_sn objects sn = Return data <->
     _validate_multivalue_data sn = Return data
     /\ forall asset, asset ∈ objects -> ~ matches Asset.sn data asset)
  /\ (forall e,
        _validate_multivalue_data sn = Raise e ->
        AddDeviceForm.clean_sn objects sn = Raise e)
  /\ AddPartForm.clean_sn objects sn = AddDeviceForm.clean_sn objects sn.
Proof.
  split; [|split; [|done]].
  - intros data. apply clean_sn_Return.
  - intros e He. unfold AddDeviceForm.clean_sn. by rewrite He.
Qed.

(** ** The barcode field of device creation *)

(** The loop of [clean_barcode] does what the loop of the parser does,
    with its own message for a duplicate. *)
Lemma barcode_loop_multivalue_loop acc frags :
  match multivalue_loop acc frags with
  | Return items => AddDeviceForm.barcode_loop acc frags = Return items
  | Raise e =>
      e = DuplicateToken
      /\ AddDeviceForm.barcode_loop acc frags
         = Raise (ValidationError AddDeviceForm.duplicate_barcodes_msg)
      \/ e = InvalidCharacter
         /\ AddDeviceForm.barcode_loop acc frags = Raise InvalidCharacter
  end.
Proof.
  revert acc. induction frags as [|f frags IH]; intros acc; [done|].
  simpl. repeat case_bool_decide; try apply IH; [by left|by right].
Qed.

Lemma clean_barcode_blank_input objects barcode :
  strip barcode = [] -> AddDeviceForm.clean_barcode objects barcode = Return [].
Proof.
  intros E. unfold AddDeviceForm.clean_barcode. cbv zeta.
  by rewrite bool_decide_eq_false_2 by (by intros ?).
Qed.

Lemma clean_barcode_loop objects barcode :
  strip barcode <> [] ->
  AddDeviceForm.clean_barcode objects barcode =
  barcodes ← AddDeviceForm.barcode_loop [] (fragments (strip barcode));
  if bool_decide (barcodes = []) then
    Raise (ValidationError AddDeviceForm.barcode_list_msg)
  else if fst (_check_barcodes_uniqueness objects barcodes) then Return barcodes
  else
    Raise (ValidationError
             (u "Following barcodes already exists in DB: "
                ++ join (u ", ")
                     (conflict_tokens
                        (snd (_check_barcodes_uniqueness objects barcodes))))).
Proof.
  intros Hne. unfold AddDeviceForm.clean_barcode. cbv zeta.
  rewrite bool_decide_eq_true_2 by done.
  destruct (AddDeviceForm.barcode_loop [] (fragments (strip barcode)));
    simpl; [|done].
  case_bool_decide; [done|].
  by destruct (_check_barcodes_uniqueness objects a) as [[|] ?].
Qed.

Lemma clean_barcode_Return objects barcode barcodes :
  barcodes <> [] ->
  (AddDeviceForm.clean_barcode objects barcode = Return barcodes <->
   _validate_multivalue_data barcode = Return barcodes
   /\ forall asset, asset ∈ objects -> ~ matches Asset.barcode barcodes asset).
Proof.
  intros Hb.
  pose proof (barcode_loop_multivalue_loop [] (fragments (strip barcode)))
    as Hloop.
  rewrite validate_Return. split.
  - intros H. destruct (decide (strip barcode = [])) as [E|Hne].
    { rewrite clean_barcode_blank_input in H by done. by injection H as <-. }
    rewrite clean_barcode_loop in H by done.
    destruct (multivalue_loop [] (fragments (strip barcode))) as [items|e].
    + rewrite Hloop in H. simpl in H. case_bool_decide; [done|].
      destruct (fst (_check_barcodes_uniqueness objects items)) eqn:Hc;
        [|done].
      injection H as ->. split; [by repeat split|].
      by apply check_barcode_passes.
    + by destruct Hloop as [[_ Hl]|[_ Hl]]; rewrite Hl in H.
  - intros [(Hne & Hl & _) Hnone]. rewrite Hl in Hloop.
    rewrite clean_barcode_loop, Hloop by done. simpl.
    rewrite bool_decide_eq_false_2 by done.
    apply check_barcode_passes in Hnone. by rewrite Hnone.
Qed.

(** Property X11.  [clean_barcode] returns the empty list exactly on a blank
    field, whatever the table holds; it returns a non-empty list exactly
    when the parser of the serial numbers returns that list for the same
    text and no row of the table has one of its barcodes. *)
Theorem clean_barcode_accepts objects barcode :
  (AddDeviceForm.clean_barcode objects barcode = Return [] <->
   strip barcode = [])
  /\ (forall barcodes,
        barcodes <> [] ->
        (AddDeviceForm.clean_barcode objects barcode = Return barcodes <->
         _validate_multivalue_data barcode = Return barcodes
         /\ forall asset,
              asset ∈ objects -> ~ matches Asset.barcode barcodes asset)).
Proof.
  split.
  - split; [|apply clean_barcode_blank_input].
    intros H. destruct (decide (strip barcode = [])) as [|Hne]; [done|].
    rewrite clean_barcode_loop in H by done.
    destruct (AddDeviceForm.barcode_loop [] (fragments (strip barcode)))
      as [b|e]; simpl in H; [|done].
    case_bool_decide; [done|].
    destruct (fst (_check_barcodes_uniqueness objects b)); [|done].
    by injection H as ->.
  - intros barcodes Hb. by apply clean_barcode_Return.
Qed.

(** Property X12.  On a field that is not blank, [clean_barcode] fails
    where the parser of the serial numbers fails: with the message of the
    barcode list when no token is found, with its own message for a
    duplicate, and with the message of the serial numbers for a space. *)
Theorem clean_barcode_rejects objects barcode :
  strip barcode <> [] ->
  (_validate_multivalue_data barcode = Raise EmptyInput ->
   AddDeviceForm.clean_barcode objects barcode
   = Raise (ValidationError AddDeviceForm.barcode_list_msg))
  /\ (_validate_multivalue_data barcode = Raise DuplicateToken ->
      AddDeviceForm.clean_barcode objects barcode
      = Raise (ValidationError AddDeviceForm.duplicate_barcodes_msg))
  /\ (_validate_multivalue_data barcode = Raise InvalidCharacter ->
      AddDeviceForm.clean_barcode objects barcode
      = Raise (ValidationError white_characters_msg)).
Proof.
  intros Hne. rewrite clean_barcode_loop by done.
  pose proof (barcode_loop_multivalue_loop [] (fragments (strip barcode)))
    as Hloop.
  unfold _validate_multivalue_data. cbv zeta.
  rewrite bool_decide_eq_false_2 by done.
  destruct messages_distinct as (Hed & Hei & Hdi).
  destruct (multivalue_loop [] (fragments (strip barcode))) as [items|e];
    simpl.
  - rewrite Hloop. simpl. case_bool_decide; [done|].
    by repeat split.
  - destruct Hloop as [[-> ->]|[-> ->]]; simpl.
    + split; [by intros [= E]; destruct Hed; rewrite <- E|].
      split; [done|]. intros E. by destruct Hdi.
    + split; [by intros [= E]; destruct Hei; rewrite <- E|].
      split; [|done]. intros E. by destruct Hdi.
Qed.

Lemma clean_barcode_rejects_witness :
  AddDeviceForm.clean_barcode [] (u ",,")
  = Raise (ValidationError AddDeviceForm.barcode_list_msg).
Proof.
  apply (clean_barcode_rejects [] (u ",,")).
  - vm_compute. discriminate.
  - vm_compute. reflexivity.
Defined.

(** ** Device creation as a whole *)

Lemma clean_errors (self : AddDeviceForm.t) :
  let serial_numbers :=
    default [] (AddDeviceForm.cleaned_data self !! "sn"%string) in
  let barcodes :=
    default [] (AddDeviceForm.cleaned_data self !! "barcode"%string) in
  snd (AddDeviceForm.clean self) =
  if decide (barcodes = [] \/ length serial_numbers = length barcodes) then self
  else
    AddDeviceForm.mk (AddDeviceForm.cleaned_data self)
      (<["barcode"%string := AddDeviceForm.LengthMismatch]>
         (AddDeviceForm._errors self)).
Proof.
  cbv zeta. unfold AddDeviceForm.clean. cbv zeta.
  repeat case_bool_decide; simpl; case_decide; try done; tauto.
Qed.


(** Property X14.  When [clean_sn] and [clean_barcode] both return and
    their lists are the two entries of [cleaned_data], the serial numbers
    are at least one, pairwise distinct and unknown to the table, the
    barcodes are pairwise distinct and unknown to the table, and the form
    without other errors is valid after [clean] exactly when there is no
    barcode or one barcode for each serial number. *)
Theorem device_creation_validation objects sn barcode serial_numbers barcodes :
  AddDeviceForm.clean_sn objects sn = Return serial_numbers ->
  AddDeviceForm.clean_barcode objects barcode = Return barcodes ->
  serial_numbers <> [] /\ NoDup serial_numbers /\ NoDup barcodes
  /\ (forall asset,
        asset ∈ objects -> ~ matches Asset.sn serial_numbers asset)
  /\ (forall asset,
        asset ∈ objects -> ~ matches Asset.barcode barcodes asset)
  /\ (AddDeviceForm.is_valid
        (snd (AddDeviceForm.clean
                (AddDeviceForm.mk
                   {[ "sn"%string := serial_numbers;
                      "barcode"%string := barcodes ]} ∅))) = true <->
      barcodes = [] \/ length serial_numbers = length barcodes).
Proof.
  intros Hsn Hbc.
  apply clean_sn_Return in Hsn as [Hparse Hsn].
  pose proof Hparse as (_ & _ & Hne)%validate_Return.
  pose proof Hparse as (_ & Hnd & _)%validate_tokens.
  split; [done|]. split; [done|].
  assert (Hb : NoDup barcodes
               /\ forall asset,
                    asset ∈ objects -> ~ matches Asset.barcode barcodes asset).
  { destruct barcodes as [|b bs].
    - split; [constructor|]. intros a _ (t & _ & Ht). by apply elem_of_nil in Ht.
    - apply clean_barcode_Return in Hbc as [Hp Hnone]; [|done].
      split; [|done]. by apply validate_tokens in Hp as (_ & ? & _). }
  destruct Hb as [Hbnd Hbnone]. split; [done|]. split; [done|]. split; [done|].
  rewrite clean_errors. cbv zeta. simpl.
  assert (Hs : ({[ "sn"%string := serial_numbers; "barcode"%string := barcodes ]}
                  : gmap string (list ustring)) !! "sn"%string
               = Some serial_numbers) by reflexivity.
  assert (Hb : ({[ "sn"%string := serial_numbers; "barcode"%string := barcodes ]}
                  : gmap string (list ustring)) !! "barcode"%string
               = Some barcodes) by reflexivity.
  rewrite Hs, Hb. simpl.
  case_decide as Hd; simpl.
  - unfold AddDeviceForm.is_valid. simpl. by rewrite bool_decide_eq_true_2.
  - unfold AddDeviceForm.is_valid. simpl. split; [|done].
    intros H%bool_decide_eq_true. by apply insert_non_empty in H.
Qed.

Lemma device_creation_validation_witness :
  AddDeviceForm.is_valid
    (snd (AddDeviceForm.clean
            (AddDeviceForm.mk
               {[ "sn"%string := [u "s1"; u "s2"];
                  "barcode"%string := [u "b1"; u "b2"] ]} ∅))) = true.
Proof.
  apply (device_creation_validation
           [Asset.mk 1 (Some (u "s0")) (Some (u "b0")) 1]
           (u "s1, s2") (u "b1,b2") [u "s1"; u "s2"] [u "b1"; u "b2"]).
  - vm_compute; reflexivity.
  - vm_compute; reflexivity.
  - right. reflexivity.
Defined.

(** ** More on form construction *)

Section MoreForms.
Variable DC BO : list Choice.t.
Variable model_choices : string -> list (Z * string).

(** The fields [ModelForm.__init__] builds, which do not depend on the
    keywords. *)
Lemma ModelForm_fields Meta_fields declared kwargs fields :
  ModelForm__init__ model_choices Meta_fields declared kwargs = Return fields ->
  fields =
  list_to_map
    (declared ++ ((fun name => (name, ModelField (model_choices name)))
                    <$> Meta_fields)).
Proof. unfold ModelForm__init__. case_bool_decide; [|done]. by intros [= <-]. Qed.

Lemma ModelForm_unexpected_keyword Meta_fields declared kwargs key :
  is_Some (kwargs !! key) -> key ∉ ModelForm_keywords ->
  ModelForm__init__ model_choices Meta_fields declared kwargs
  = Raise (TypeError (u "__init__() got an unexpected keyword argument")).
Proof.
  intros Hk Hn. unfold ModelForm__init__.
  rewrite bool_decide_eq_false_2; [done|].
  intros Hsub. apply Hn. apply elem_of_dom in Hk. apply Hsub in Hk.
  by apply elem_of_list_to_set in Hk.
Qed.

Lemma asset_form_base Meta_fields kwargs fields :
  asset_form__init__ DC BO model_choices Meta_fields kwargs = Return fields ->
  exists choices,
    let base : gmap string field :=
      list_to_map
        (asset_declared_fields
           ++ ((fun name => (name, ModelField (model_choices name)))
                 <$> Meta_fields)) in
    fields = base \/ fields = alter (set_choices choices) "type"%string base.
Proof.
  unfold asset_form__init__. cbv zeta.
  destruct (ModelForm__init__ _ _ _ _) as [base|e] eqn:E; simpl; [|done].
  apply ModelForm_fields in E. subst base.
  repeat case_bool_decide; intros [= <-].
  - exists (DC_type_choices DC). by right.
  - exists (BO_type_choices BO). by right.
  - exists []. by left.
Qed.

Lemma asset_form_falsy_mode Meta_fields kwargs :
  truthy (kwargs_get kwargs "mode") = false ->
  asset_form__init__ DC BO model_choices Meta_fields kwargs
  = ModelForm__init__ model_choices Meta_fields asset_declared_fields kwargs.
Proof.
  intros Hf. unfold asset_form__init__. cbv zeta. rewrite Hf.
  destruct (ModelForm__init__ _ _ _ _) as [base|e]; simpl; [|done].
  rewrite !bool_decide_eq_false_2; [done| |]; intros E; by rewrite E in Hf.
Qed.

End MoreForms.

(** Property X15.  An asset form ([BaseAssetForm], [BaseAddAssetForm],
    [EditDeviceForm] or [EditPartForm]) constructed with a [mode] keyword
    whose value is [None] or the empty string raises [TypeError], for the
    keyword is then left for [ModelForm.__init__]; constructed without the
    keyword, and with keywords of [ModelForm.__init__] only, it offers the
    type choices of the model. *)
Theorem asset_form_mode_edges
  (DC BO : list Choice.t) (model_choices : string -> list (Z * string))
  (init : gmap string pyval -> result (gmap string field))
  (kwargs : gmap string pyval) :
  init ∈ [BaseAssetForm__init__ DC BO model_choices;
          BaseAddAssetForm__init__ DC BO model_choices;
          EditDeviceForm__init__ DC BO model_choices;
          EditPartForm__init__ DC BO model_choices] ->
  (forall v,
     kwargs !! "mode"%string = Some v -> truthy v = false ->
     init kwargs
     = Raise (TypeError (u "__init__() got an unexpected keyword argument")))
  /\ (kwargs !! "mode"%string = None ->
      dom kwargs ⊆ list_to_set ModelForm_keywords ->
      exists fields,
        init kwargs = Return fields
        /\ type_choices fields = model_choices "type"%string).
Proof.
  intros Hinit.
  assert (Hraise : forall Meta_fields v,
             kwargs !! "mode"%string = Some v -> truthy v = false ->
             asset_form__init__ DC BO model_choices Meta_fields kwargs
             = Raise (TypeError (u "__init__() got an unexpected keyword argument"))).
  { intros Meta_fields v Hv Hf. rewrite asset_form_falsy_mode.
    - apply ModelForm_unexpected_keyword with (key := "mode"%string).
      + by rewrite Hv.
      + intros Hin. apply list_elem_of_In in Hin. simpl in Hin.
        repeat (destruct Hin as [Hin|Hin]; [discriminate Hin|]). exact Hin.
    - unfold kwargs_get. by rewrite Hv. }
  assert (Hret : forall Meta_fields,
             "type"%string ∈ Meta_fields ->
             kwargs !! "mode"%string = None ->
             dom kwargs ⊆ list_to_set ModelForm_keywords ->
             exists fields,
               asset_form__init__ DC BO model_choices Meta_fields kwargs
               = Return fields
               /\ fields !! "type"%string
                  = Some (ModelField (model_choices "type"%string))).
  { intros Meta_fields Hty Hn Hsub. rewrite asset_form_falsy_mode.
    - destruct (ModelForm__init__ model_choices Meta_fields
                  asset_declared_fields kwargs) as [fields|e] eqn:E.
      + exists fields. split; [done|]. by eapply ModelForm_type_field.
      + unfold ModelForm__init__ in E. by rewrite bool_decide_eq_true_2 in E.
    - unfold kwargs_get. by rewrite Hn. }
  assert (Ht1 : "type"%string ∈ BaseAssetForm_Meta_fields) by left.
  assert (Ht2 : "type"%string ∈ BaseAddAssetForm_Meta_fields) by left.
  repeat (apply elem_of_cons in Hinit as [->|Hinit]);
    [| | | |by apply elem_of_nil in Hinit].
  - split; [apply Hraise|]. intros Hn Hsub.
    destruct (Hret _ Ht1 Hn Hsub) as (fields & Hf & Hty).
    exists fields. split; [done|]. unfold type_choices. by rewrite Hty.
  - split; [apply Hraise|]. intros Hn Hsub.
    destruct (Hret _ Ht2 Hn Hsub) as (fields & Hf & Hty).
    exists fields. split; [done|]. unfold type_choices. by rewrite Hty.
  - split; [apply Hraise|]. intros Hn Hsub.
    destruct (Hret _ Ht1 Hn Hsub) as (fields & Hf & Hty).
    exists fields. split; [done|]. unfold type_choices. by rewrite Hty.
  - unfold EditPartForm__init__, BaseAssetForm__init__. split.
    + intros v Hv Hf. by rewrite (Hraise _ v).
    + intros Hn Hsub. destruct (Hret _ Ht1 Hn Hsub) as (fields & Hf & Hty).
      rewrite Hf. simpl. eexists. split; [done|].
      unfold type_choices. by rewrite lookup_delete_ne, Hty.
Qed.

Lemma asset_form_mode_edges_witness :
  BaseAddAssetForm__init__ AssetType_DC_instance AssetType_BO_instance
    model_choices_instance {[ "mode"%string := PyStr "" ]}
  = Raise (TypeError (u "__init__() got an unexpected keyword argument")).
Proof.
  apply (proj1 (asset_form_mode_edges
                  AssetType_DC_instance AssetType_BO_instance
                  model_choices_instance _ {[ "mode"%string := PyStr "" ]}
                  ltac:(right; left)) (PyStr "")); reflexivity.
Defined.

Lemma asset_form_apart_from_type DC BO model_choices Meta_fields
  kwargs kwargs' fields fields' :
  asset_form__init__ DC BO model_choices Meta_fields kwargs = Return fields ->
  asset_form__init__ DC BO model_choices Meta_fields kwargs' = Return fields' ->
  (forall name, name <> "type"%string -> fields !! name = fields' !! name)
  /\ dom fields = dom fields'
  /\ fields !! "model"%string
     = Some (AutoCompleteSelectField "asset_model" true None)
  /\ fields !! "warehouse"%string
     = Some (AutoCompleteSelectField "asset_warehouse" true None).
Proof.
  intros (c & H)%asset_form_base (c' & H')%asset_form_base. cbv zeta in *.
  set (base := list_to_map _ : gmap string field) in *.
  assert (Hm : base !! "model"%string
               = Some (AutoCompleteSelectField "asset_model" true None)).
  { unfold base, asset_declared_fields. simpl. apply lookup_insert_eq. }
  assert (Hw : base !! "warehouse"%string
               = Some (AutoCompleteSelectField "asset_warehouse" true None)).
  { unfold base, asset_declared_fields. simpl.
    rewrite lookup_insert_ne by done. apply lookup_insert_eq. }
  assert (Hlook : forall choices name,
             name <> "type"%string ->
             alter (set_choices choices) "type"%string base !! name
             = base !! name).
  { intros choices name Hn. by rewrite lookup_alter_ne. }
  destruct H as [-> | ->], H' as [-> | ->];
    rewrite ?dom_alter_L, ?Hlook by done;
    (split; [intros name Hn; by rewrite ?Hlook by done|done]).
Qed.

(** Property X16.  Two asset forms of the same class, constructed with
    whatever modes and keywords, have the same fields and differ at most in
    the [type] field; in each of them [model] and [warehouse] are the
    autocomplete fields the class declares. *)
Theorem asset_form_mode_changes_type_only
  (DC BO : list Choice.t) (model_choices : string -> list (Z * string))
  (init : gmap string pyval -> result (gmap string field))
  (kwargs kwargs' : gmap string pyval) (fields fields' : gmap string field) :
  init ∈ [BaseAssetForm__init__ DC BO model_choices;
          BaseAddAssetForm__init__ DC BO model_choices;
          EditDeviceForm__init__ DC BO model_choices;
          EditPartForm__init__ DC BO model_choices] ->
  init kwargs = Return fields ->
  init kwargs' = Return fields' ->
  (forall name, name <> "type"%string -> fields !! name = fields' !! name)
  /\ dom fields = dom fields'
  /\ fields !! "model"%string
     = Some (AutoCompleteSelectField "asset_model" true None)
  /\ fields !! "warehouse"%string
     = Some (AutoCompleteSelectField "asset_warehouse" true None).
Proof.
  intros Hinit.
  repeat (apply elem_of_cons in Hinit as [->|Hinit]);
    [| | | |by apply elem_of_nil in Hinit];
    try apply asset_form_apart_from_type.
  unfold EditPartForm__init__, BaseAssetForm__init__.
  destruct (asset_form__init__ DC BO model_choices BaseAssetForm_Meta_fields
              kwargs) as [base|e] eqn:E; simpl; [|done].
  destruct (asset_form__init__ DC BO model_choices BaseAssetForm_Meta_fields
              kwargs') as [base'|e'] eqn:E'; simpl; [|done].
  intros [= <-] [= <-].
  destruct (asset_form_apart_from_type _ _ _ _ _ _ _ _ E E')
    as (Hl & Hd & Hm & Hw).
  split; [|split; [|split]].
  - intros name Hn. destruct (decide (name = "barcode"%string)) as [->|Hb].
    + by rewrite !lookup_delete_eq.
    + rewrite !lookup_delete_ne by done. by apply Hl.
  - by rewrite !dom_delete_L, Hd.
  - by rewrite lookup_delete_ne.
  - by rewrite lookup_delete_ne.
Qed.

Lemma asset_form_mode_changes_type_only_witness :
  exists fields fields',
    BaseAssetForm__init__ AssetType_DC_instance AssetType_BO_instance
      model_choices_instance {[ "mode"%string := PyStr "dc" ]} = Return fields
    /\ BaseAssetForm__init__ AssetType_DC_instance AssetType_BO_instance
         model_choices_instance {[ "mode"%string := PyStr "back_office" ]}
       = Return fields'
    /\ dom fields = dom fields'.
Proof.
  destruct (asset_form_type_choices AssetType_DC_instance AssetType_BO_instance
              model_choices_instance BaseAssetForm_Meta_fields
              {[ "mode"%string := PyStr "dc" ]})
    as (fields & H & _);
    [left|reflexivity|apply accepted_kwargs_mode_only|].
  destruct (asset_form_type_choices AssetType_DC_instance AssetType_BO_instance
              model_choices_instance BaseAssetForm_Meta_fields
              {[ "mode"%string := PyStr "back_office" ]})
    as (fields' & H' & _);
    [left|reflexivity|apply accepted_kwargs_mode_only|].
  exists fields, fields'. split; [exact H|]. split; [exact H'|].
  apply (asset_form_mode_changes_type_only
           AssetType_DC_instance AssetType_BO_instance model_choices_instance
           _ _ _ fields fields' ltac:(left) H H').
Defined.

(** Property X17.  [EditPartForm.__init__] fails exactly as
    [BaseAssetForm.__init__] fails; when the latter returns, the [barcode]
    field it built is there to be deleted, and the part form has no
    [barcode] field, every other field as built, the [sn] field among
    them, and the same type choices. *)
Theorem EditPartForm_drops_barcode
  (DC BO : list Choice.t) (model_choices : string -> list (Z * string))
  (kwargs : gmap string pyval) :
  (forall e,
     EditPartForm__init__ DC BO model_choices kwargs = Raise e <->
     BaseAssetForm__init__ DC BO model_choices kwargs = Raise e)
  /\ (forall base,
        BaseAssetForm__init__ DC BO model_choices kwargs = Return base ->
        is_Some (base !! "barcode"%string)
        /\ exists fields,
             EditPartForm__init__ DC BO model_choices kwargs = Return fields
             /\ fields !! "barcode"%string = None
             /\ (forall name,
                   name <> "barcode"%string -> fields !! name = base !! name)
             /\ is_Some (fields !! "sn"%string)
             /\ type_choices fields = type_choices base).
Proof.
  unfold EditPartForm__init__. split.
  - intros e. by destruct (BaseAssetForm__init__ DC BO model_choices kwargs).
  - intros base Hbase. rewrite Hbase. simpl.
    pose proof Hbase as (c & Hc)%asset_form_base. cbv zeta in Hc.
    set (b := list_to_map _ : gmap string field) in Hc.
    assert (Hbar : is_Some (b !! "barcode"%string)) by (by eexists).
    assert (Hsn : is_Some (b !! "sn"%string)) by (by eexists).
    assert (Hbar' : is_Some (base !! "barcode"%string)).
    { destruct Hc as [-> | ->]; [done|]. by rewrite lookup_alter_ne. }
    assert (Hsn' : is_Some (base !! "sn"%string)).
    { destruct Hc as [-> | ->]; [done|]. by rewrite lookup_alter_ne. }
    split; [done|]. eexists. split; [done|].
    split; [apply lookup_delete_eq|].
    split; [by intros name Hn; rewrite lookup_delete_ne|].
    split; [by rewrite lookup_delete_ne|].
    unfold type_choices. by rewrite lookup_delete_ne.
Qed.

Lemma PartInfo_instance_delete_mode (kwargs : gmap string pyval) :
  PartInfo_instance (delete "mode"%string kwargs) = PartInfo_instance kwargs.
Proof. unfold PartInfo_instance. by rewrite lookup_delete_ne. Qed.

(** Property X18.  A part form constructed with a mode that is not empty,
    and otherwise with keywords of [ModelForm.__init__] only, has exactly
    the fields [barcode_salvaged], [device] and [source_device]; the last
    two are optional autocomplete fields on one and the same channel, that
    of the data-center devices when the mode is ["dc"] and that of the
    back-office devices otherwise, and their initial values are the device
    and the source device of the instance. *)
Theorem BasePartForm_init_fields
  (model_choices : string -> list (Z * string)) (kwargs : gmap string pyval) :
  truthy (kwargs_get kwargs "mode") = true ->
  accepted_kwargs kwargs ->
  let channel :=
    if decide (kwargs_get kwargs "mode" = PyStr "dc") then
      "asset_dcdevice"%string
    else "asset_bodevice"%string in
  exists fields,
    BasePartForm__init__ model_choices kwargs = Return fields
    /\ fields !! "device"%string
       = Some (AutoCompleteSelectField channel false
                 (fst (PartInfo_instance kwargs)))
    /\ fields !! "source_device"%string
       = Some (AutoCompleteSelectField channel false
                 (snd (PartInfo_instance kwargs)))
    /\ fields !! "barcode_salvaged"%string
       = Some (ModelField (model_choices "barcode_salvaged"%string))
    /\ dom fields
       = {[ "barcode_salvaged"%string; "device"%string;
            "source_device"%string ]}.
Proof.
  intros Ht Hacc. cbv zeta. unfold BasePartForm__init__. cbv zeta.
  rewrite Ht. unfold ModelForm__init__. unfold accepted_kwargs in Hacc.
  rewrite (bool_decide_eq_true_2 _ Hacc). simpl.
  rewrite PartInfo_instance_delete_mode.
  destruct (PartInfo_instance kwargs) as [device source_device]. simpl.
  eexists. split; [done|].
  assert (Hch : (if bool_decide (kwargs_get kwargs "mode" = PyStr "dc")
                 then "asset_dcdevice"%string else "asset_bodevice"%string)
                = (if decide (kwargs_get kwargs "mode" = PyStr "dc")
                   then "asset_dcdevice"%string else "asset_bodevice"%string)).
  { by case_bool_decide; case_decide. }
  rewrite Hch. clear Hch.
  generalize (if decide (kwargs_get kwargs "mode" = PyStr "dc")
              then "asset_dcdevice"%string else "asset_bodevice"%string).
  intros channel.
  destruct device as [d|], source_device as [sd|]; simpl;
    rewrite ?bool_decide_eq_true_2 by (by eexists);
    rewrite ?bool_decide_eq_false_2 by (by intros [? ?]);
    (split; [done|]); (split; [done|]); (split; [done|]);
    rewrite ?dom_alter_L, !dom_insert_L, dom_empty_L; set_solver.
Qed.

Lemma BasePartForm_init_fields_witness :
  exists fields,
    BasePartForm__init__ model_choices_instance
      {[ "mode"%string := PyStr "back_office";
         "instance"%string := PyPartInfo None (Some 5%Z) ]}
    = Return fields
    /\ fields !! "source_device"%string
       = Some (AutoCompleteSelectField "asset_bodevice" false (Some 5%Z)).
Proof.
  destruct (BasePartForm_init_fields model_choices_instance
              {[ "mode"%string := PyStr "back_office";
                 "instance"%string := PyPartInfo None (Some 5%Z) ]})
    as (fields & H & _ & Hs & _).
  - reflexivity.
  - unfold accepted_kwargs. apply (bool_decide_unpack _). vm_compute. exact I.
  - exists fields. split; [exact H|exact Hs].
Defined.

(** ** The search form *)

Lemma SearchAssetForm_init_cases AssetStatus kwargs :
  let mode := kwargs_get kwargs "mode" in
  let kwargs' := if truthy mode then delete "mode"%string kwargs else kwargs in
  let channel :=
    if decide (mode = PyStr "dc") then "asset_dcdevice"%string
    else "asset_bodevice"%string in
  SearchAssetForm.__init__ AssetStatus kwargs =
  if decide (dom kwargs' ⊆ list_to_set SearchAssetForm.Form_keywords) then
    Return (<["device"%string :=
                SearchAssetForm.AutoCompleteSelectField channel false]>
              (list_to_map (SearchAssetForm.declared_fields AssetStatus)))
  else Raise (TypeError (u "__init__() got an unexpected keyword argument")).
Proof.
  cbv zeta. unfold SearchAssetForm.__init__, SearchAssetForm.Form__init__.
  cbv zeta. case_decide as Hd.
  - rewrite (bool_decide_eq_true_2 _ Hd). simpl.
    by case_bool_decide; case_decide.
  - by rewrite (bool_decide_eq_false_2 _ Hd).
Qed.

(** Property X19.  [SearchAssetForm.__init__] never raises
    [ModeNotSetException].  With keywords of [Form.__init__] only beside the
    mode, and the mode absent or not empty, it returns the declared fields
    and the optional [device] field, on the channel of the data-center
    devices when the mode is ["dc"] and on that of the back-office devices
    otherwise, the absent mode included.  With a [mode] keyword whose value
    is [None] or the empty string it raises [TypeError]. *)
Theorem SearchAssetForm_init_device
  (AssetStatus : list (Z * string)) (kwargs : gmap string pyval) :
  (forall msg,
     SearchAssetForm.__init__ AssetStatus kwargs
     <> Raise (ModeNotSetException msg))
  /\ (dom (delete "mode"%string kwargs)
        ⊆ list_to_set SearchAssetForm.Form_keywords ->
      kwargs !! "mode"%string = None
      \/ truthy (kwargs_get kwargs "mode") = true ->
      exists fields,
        SearchAssetForm.__init__ AssetStatus kwargs = Return fields
        /\ fields !! "device"%string
           = Some (SearchAssetForm.AutoCompleteSelectField
                     (if decide (kwargs_get kwargs "mode" = PyStr "dc") then
                        "asset_dcdevice"%string
                      else "asset_bodevice"%string) false)
        /\ (forall name f,
              (name, f) ∈ SearchAssetForm.declared_fields AssetStatus ->
              fields !! name = Some f)
        /\ (kwargs !! "mode"%string = None ->
            fields !! "device"%string
            = Some (SearchAssetForm.AutoCompleteSelectField
                      "asset_bodevice" false)))
  /\ (forall v,
        kwargs !! "mode"%string = Some v -> truthy v = false ->
        SearchAssetForm.__init__ AssetStatus kwargs
        = Raise (TypeError (u "__init__() got an unexpected keyword argument"))).
Proof.
  rewrite SearchAssetForm_init_cases. cbv zeta.
  split; [by case_decide|]. split.
  - intros Hsub Hmode.
    rewrite decide_True.
    2:{ destruct Hmode as [Hn|Ht].
        - unfold kwargs_get. rewrite Hn. simpl. by rewrite delete_id in Hsub.
        - by rewrite Ht. }
    eexists. split; [done|]. split; [apply lookup_insert_eq|]. split.
    + intros name f Hin. apply list_elem_of_In in Hin. simpl in Hin.
      repeat (destruct Hin as [[= <- <-]|Hin]; [reflexivity|]).
      destruct Hin.
    + intros Hn. rewrite lookup_insert_eq. unfold kwargs_get. by rewrite Hn.
  - intros v Hv Hf. unfold kwargs_get. rewrite Hv.
    change (default PyNone (Some v)) with v. rewrite Hf.
    rewrite decide_False; [done|]. intros Hsub.
    assert (Hin : "mode"%string ∈ dom kwargs) by (apply elem_of_dom; eauto).
    apply Hsub in Hin. apply elem_of_list_to_set, list_elem_of_In in Hin.
    simpl in Hin.
    repeat (destruct Hin as [Hin|Hin]; [discriminate Hin|]). exact Hin.
Qed.

Lemma SearchAssetForm_init_device_witness :
  exists fields,
    SearchAssetForm.__init__ [(1%Z, "new"%string)] ∅ = Return fields
    /\ fields !! "device"%string
       = Some (SearchAssetForm.AutoCompleteSelectField "asset_bodevice" false).
Proof.
  destruct (proj1 (proj2 (SearchAssetForm_init_device [(1%Z, "new"%string)] ∅)))
    as (fields & H & _ & _ & Hd).
  - apply (bool_decide_unpack _). vm_compute. exact I.
  - left. reflexivity.
  - exists fields. split; [exact H|]. apply Hd. reflexivity.
Defined.

(** Property X20.  Whenever a part form is constructed, without an
    [instance] keyword, the search form constructed with the same keywords
    looks its device up on the channel on which the part form looks up its
    device and its source device. *)
Theorem part_form_and_search_form_channel
  (model_choices : string -> list (Z * string))
  (AssetStatus : list (Z * string)) (kwargs : gmap string pyval)
  (part_fields : gmap string field) :
  BasePartForm__init__ model_choices kwargs = Return part_fields ->
  kwargs !! "instance"%string = None ->
  exists search_fields channel,
    SearchAssetForm.__init__ AssetStatus kwargs = Return search_fields
    /\ search_fields !! "device"%string
       = Some (SearchAssetForm.AutoCompleteSelectField channel false)
    /\ part_fields !! "device"%string
       = Some (AutoCompleteSelectField channel false None)
    /\ part_fields !! "source_device"%string
       = Some (AutoCompleteSelectField channel false None).
Proof.
  intros Hpart Hinst.
  destruct (truthy (kwargs_get kwargs "mode")) eqn:Ht.
  2:{ unfold BasePartForm__init__ in Hpart. cbv zeta in Hpart.
      by rewrite Ht in Hpart. }
  assert (Hacc : accepted_kwargs kwargs).
  { unfold BasePartForm__init__, ModelForm__init__ in Hpart.
    cbv zeta in Hpart. rewrite Ht in Hpart.
    unfold accepted_kwargs.
    destruct (decide (dom (delete "mode"%string kwargs)
                        ⊆ list_to_set ModelForm_keywords)) as [|Hn]; [done|].
    by rewrite (bool_decide_eq_false_2 _ Hn) in Hpart. }
  assert (Hfields :
            let channel :=
              if decide (kwargs_get kwargs "mode" = PyStr "dc") then
                "asset_dcdevice"%string
              else "asset_bodevice"%string in
            part_fields !! "device"%string
            = Some (AutoCompleteSelectField channel false None)
            /\ part_fields !! "source_device"%string
               = Some (AutoCompleteSelectField channel false None)).
  { cbv zeta. unfold BasePartForm__init__, ModelForm__init__ in Hpart.
    cbv zeta in Hpart. rewrite Ht in Hpart.
    unfold accepted_kwargs in Hacc.
    rewrite (bool_decide_eq_true_2 _ Hacc) in Hpart. simpl in Hpart.
    rewrite PartInfo_instance_delete_mode in Hpart.
    unfold PartInfo_instance in Hpart. rewrite Hinst in Hpart.
    simpl in Hpart. injection Hpart as <-.
    by case_bool_decide; case_decide. }
  destruct Hfields as [Hd Hs].
  rewrite SearchAssetForm_init_cases. cbv zeta. rewrite Ht.
  rewrite decide_True.
  - eexists _, _. split; [done|]. split; [apply lookup_insert_eq|]. done.
  - intros x Hx. pose proof (Hacc x Hx) as Hk.
    assert (x <> "instance"%string).
    { intros ->. apply elem_of_dom in Hx as [v Hv].
      rewrite lookup_delete_ne in Hv by done. congruence. }
    apply elem_of_list_to_set, list_elem_of_In in Hk.
    apply elem_of_list_to_set, list_elem_of_In. simpl in *.
    intuition congruence.
Qed.

Lemma part_form_and_search_form_channel_witness :
  exists part_fields search_fields,
    BasePartForm__init__ model_choices_instance {[ "mode"%string := PyStr "dc" ]}
    = Return part_fields
    /\ SearchAssetForm.__init__ [] {[ "mode"%string := PyStr "dc" ]}
       = Return search_fields
    /\ search_fields !! "device"%string
       = Some (SearchAssetForm.AutoCompleteSelectField "asset_dcdevice" false).
Proof.
  assert (exists part_fields,
             BasePartForm__init__ model_choices_instance
               {[ "mode"%string := PyStr "dc" ]} = Return part_fields)
    as [part_fields Hp] by (eexists; vm_compute; reflexivity).
  assert (Hpd : part_fields !! "device"%string
                = Some (AutoCompleteSelectField "asset_dcdevice" false None)).
  { vm_compute in Hp. injection Hp as <-. reflexivity. }
  destruct (part_form_and_search_form_channel model_choices_instance []
              {[ "mode"%string := PyStr "dc" ]} part_fields Hp)
    as (search_fields & channel & Hs & Hsd & Hpd' & _); [reflexivity|].
  exists part_fields, search_fields. split; [exact Hp|]. split; [exact Hs|].
  rewrite Hsd. rewrite Hpd in Hpd'. by injection Hpd' as <-.
Defined.

(** ** Smaller lists, smaller tables, missing sizes *)

(** Property X21.  A uniqueness check that passes for a list of tokens on a
    table passes for every list made of some of these tokens and every
    table made of some of these rows. *)
Theorem check_uniqueness_monotone objects objects' tokens tokens' :
  objects' ⊆ objects -> tokens' ⊆ tokens ->
  (_check_serial_numbers_uniqueness objects tokens = (true, []) ->
   _check_serial_numbers_uniqueness objects' tokens' = (true, []))
  /\ (_check_barcodes_uniqueness objects tokens = (true, []) ->
      _check_barcodes_uniqueness objects' tokens' = (true, [])).
Proof.
  intros Hobj Htok. destruct uniqueness_contracts as [Hsn Hbc].
  destruct (Hsn objects tokens) as [[Hs1 _] _].
  destruct (Hsn objects' tokens') as [[_ Hs2] _].
  destruct (Hbc objects tokens) as [[Hb1 _] _].
  destruct (Hbc objects' tokens') as [[_ Hb2] _].
  split; intros H.
  - apply Hs2. intros a Ha (t & Ht & Hin). apply (Hs1 H a); [by apply Hobj|].
    exists t. split; [done|]. by apply Htok.
  - apply Hb2. intros a Ha (t & Ht & Hin). apply (Hb1 H a); [by apply Hobj|].
    exists t. split; [done|]. by apply Htok.
Qed.

Lemma check_uniqueness_monotone_witness :
  _check_serial_numbers_uniqueness
    [Asset.mk 1 (Some (u "s1")) None 1] [u "s3"] = (true, []).
Proof.
  destruct (check_uniqueness_monotone
              [Asset.mk 1 (Some (u "s1")) None 1;
               Asset.mk 2 (Some (u "s2")) None 1]
              [Asset.mk 1 (Some (u "s1")) None 1]
              [u "s3"; u "s4"] [u "s3"]) as [H _].
  - intros a Ha%list_elem_of_singleton. subst a. left.
  - intros t Ht%list_elem_of_singleton. subst t. left.
  - apply H. vm_compute. reflexivity.
Defined.

(** Property X22.  Whenever [clean_size] returns, it returns the size it was
    given, and that size is an integer from 0 to 65534; a missing size is
    rejected with the error of a size out of range. *)
Theorem clean_size_returns_its_argument (size value : option Z) :
  (DeviceForm.clean_size size = Return value ->
   value = size /\ exists z, size = Some z /\ (0 <= z <= 65534)%Z)
  /\ DeviceForm.clean_size None
     = Raise (ValidationError (u "Invalid size, use range 0 to 65535")).
Proof.
  split.
  - unfold DeviceForm.clean_size. case_bool_decide as Hin; [done|].
    intros [= <-]. split; [done|].
    apply list_elem_of_fmap in Hin as (z & -> & Hz%elem_of_range).
    exists z. split; [done|]. lia.
  - unfold DeviceForm.clean_size. rewrite bool_decide_eq_true_2; [done|].
    by intros (z & ? & _)%list_elem_of_fmap.
Qed.
